(** * MovieBot: the catalog client (tmdb_api.py) and the tool layer (app.py)

    A shallow embedding of the two Python modules.  Decoded JSON values,
    Python dictionaries and the handful of runtime operations the code
    relies on (truthiness, [str], [dict.get], subscripting, slicing,
    [str.join], [sorted]) come first; the client and the tools follow the
    source function by function. *)

From Stdlib Require Import ZArith List String Ascii Bool Lia.
From Stdlib Require Import DecimalString Permutation Sorted.
Import ListNotations.

Set Warnings "-register-all".
Local Open Scope string_scope.
Local Open Scope Z_scope.

(** ** Decoded JSON values

    What [response.json()] hands back, and what the agent shell passes in
    [args].  Numbers are the integral ones ([int]); binary floating point
    is outside the embedding.  A [string] is a sequence of code points
    below 256.  An object is an association list in insertion order and is
    read through [dict_get] (first binding of a key), as the decoder never
    produces two bindings of one key. *)

Inductive json : Type :=
| JNull
| JBool (b : bool)
| JInt (z : Z)
| JStr (s : string)
| JList (l : list json)
| JDict (d : list (string * json)).

Definition dict := list (string * json).

Fixpoint dict_get (k : string) (d : dict) : option json :=
  match d with
  | [] => None
  | (k', v) :: d' => if String.eqb k k' then Some v else dict_get k d'
  end.

Definition dict_keys (d : dict) : list string := map fst d.

Definition dict_has (k : string) (d : dict) : bool :=
  match dict_get k d with Some _ => true | None => false end.

(** [d[k] = v]: an existing key keeps its position, a new one goes last. *)
Fixpoint dict_set (k : string) (v : json) (d : dict) : dict :=
  match d with
  | [] => [(k, v)]
  | (k', v') :: d' =>
      if String.eqb k k' then (k, v) :: d' else (k', v') :: dict_set k v d'
  end.

(** ** The Python runtime, as far as the two modules use it *)

Inductive exn : Type :=
| RequestException (text : string)   (* requests.exceptions.RequestException and its subclasses *)
| KeyError (key : string)
| TypeError
| AttributeError
| OtherException (text : string).    (* any class outside the RequestException family *)

Inductive outcome (A : Type) : Type :=
| Returned (a : A)
| Raised (e : exn).
Arguments Returned {A} a.
Arguments Raised {A} e.

Definition obind {A B} (m : outcome A) (f : A -> outcome B) : outcome B :=
  match m with
  | Returned a => f a
  | Raised e => Raised e
  end.

Declare Scope py_scope.
Delimit Scope py_scope with py.
Notation "'let!' x ':=' m 'in' k" := (obind m (fun x => k))
  (at level 10, x name, m at level 100, k at level 200) : py_scope.
Local Open Scope py_scope.

(** [bool(v)] *)
Definition py_truthy (v : json) : bool :=
  match v with
  | JNull => false
  | JBool b => b
  | JInt z => negb (z =? 0)
  | JStr s => negb (String.eqb s "")
  | JList l => match l with [] => false | _ => true end
  | JDict d => match d with [] => false | _ => true end
  end.

(** [a or b] *)
Definition py_or (a b : json) : json := if py_truthy a then a else b.

Definition str_of_Z (z : Z) : string := NilZero.string_of_int (Z.to_int z).

Fixpoint join (sep : string) (l : list string) : string :=
  match l with
  | [] => ""
  | [s] => s
  | s :: l' => s ++ sep ++ join sep l'
  end.

Definition hex_digit (n : N) : ascii :=
  ascii_of_N (if (n <? 10)%N then 48 + n else 87 + n)%N.

(** The escape [repr] writes for one character inside quotes [q]. *)
Definition repr_char (q : ascii) (c : ascii) : string :=
  let n := N_of_ascii c in
  if Ascii.eqb c q || Ascii.eqb c "\"%char then String "\"%char (String c "")
  else if (n =? 9)%N then "\t"
  else if (n =? 10)%N then "\n"
  else if (n =? 13)%N then "\r"
  else if (n <? 32)%N || ((127 <=? n)%N && (n <=? 160)%N) || (n =? 173)%N
       then String "\"%char (String "x"%char
              (String (hex_digit (n / 16)) (String (hex_digit (n mod 16)) "")))
  else String c "".

Fixpoint str_has (c : ascii) (s : string) : bool :=
  match s with
  | EmptyString => false
  | String c' s' => Ascii.eqb c c' || str_has c s'
  end.

Fixpoint str_concat_map (f : ascii -> string) (s : string) : string :=
  match s with
  | EmptyString => ""
  | String c s' => f c ++ str_concat_map f s'
  end.

Definition dquote : ascii := ascii_of_nat 34.

(** [repr(s)] of a [str]: double quotes only when [s] holds a single quote
    and no double quote. *)
Definition repr_str (s : string) : string :=
  let q := if str_has "'"%char s && negb (str_has dquote s)
           then dquote else "'"%char in
  String q (str_concat_map (repr_char q) s ++ String q "").

(** [repr(v)] *)
Fixpoint py_repr (v : json) : string :=
  match v with
  | JNull => "None"
  | JBool true => "True"
  | JBool false => "False"
  | JInt z => str_of_Z z
  | JStr s => repr_str s
  | JList l => "[" ++ join ", " (map py_repr l) ++ "]"
  | JDict d =>
      "{" ++ join ", "
               (map (fun kv => match kv with
                               | (k, x) => repr_str k ++ ": " ++ py_repr x
                               end) d) ++ "}"
  end.

(** [str(v)], which is also what an f-string field [{v}] writes. *)
Definition py_str (v : json) : string :=
  match v with
  | JStr s => s
  | _ => py_repr v
  end.

Fixpoint str_take (n : nat) (s : string) : string :=
  match n, s with
  | S n', String c s' => String c (str_take n' s')
  | _, _ => ""
  end.

Fixpoint str_chars (s : string) : list json :=
  match s with
  | EmptyString => []
  | String c s' => JStr (String c "") :: str_chars s'
  end.

Fixpoint str_prefix (p s : string) : bool :=
  match p, s with
  | EmptyString, _ => true
  | String a p', String b s' => Ascii.eqb a b && str_prefix p' s'
  | String _ _, EmptyString => false
  end.

(** [p in s] for two [str]: substring search. *)
Fixpoint str_infix (p s : string) : bool :=
  str_prefix p s ||
  match s with
  | EmptyString => false
  | String _ s' => str_infix p s'
  end.

Definition is_str (k : string) (v : json) : bool :=
  match v with JStr s => String.eqb s k | _ => false end.

(** [k in v] for a [str] key [k] *)
Definition py_in (k : string) (v : json) : outcome bool :=
  match v with
  | JDict d => Returned (dict_has k d)
  | JList l => Returned (existsb (is_str k) l)
  | JStr s => Returned (str_infix k s)
  | _ => Raised TypeError
  end.

(** [v.get(k, default)]: only a [dict] has the method. *)
Definition py_get (v : json) (k : string) (default : json) : outcome json :=
  match v with
  | JDict d => Returned (match dict_get k d with Some x => x | None => default end)
  | _ => Raised AttributeError
  end.

(** [v[k]] for a [str] key [k] *)
Definition py_item (v : json) (k : string) : outcome json :=
  match v with
  | JDict d => match dict_get k d with
               | Some x => Returned x
               | None => Raised (KeyError k)
               end
  | _ => Raised TypeError
  end.

(** [v[:n]].  (Slicing a [dict] is a [TypeError] before CPython 3.12 and a
    [KeyError] of the slice object from then on; nothing below depends on
    which.) *)
Definition py_slice (n : nat) (v : json) : outcome json :=
  match v with
  | JStr s => Returned (JStr (str_take n s))
  | JList l => Returned (JList (firstn n l))
  | _ => Raised TypeError
  end.

(** The elements a [for] loop, [map] or [sorted] draws from [v]. *)
Definition py_iter (v : json) : outcome (list json) :=
  match v with
  | JList l => Returned l
  | JStr s => Returned (str_chars s)
  | JDict d => Returned (map JStr (dict_keys d))
  | _ => Raised TypeError
  end.

(** [for x in items: acc += f(x)], the first fault ending the loop. *)
Fixpoint for_each (f : json -> outcome string) (items : list json) (acc : string)
  : outcome string :=
  match items with
  | [] => Returned acc
  | x :: rest => let! line := f x in for_each f rest (acc ++ line)
  end.

(** [[f(x) for x in items]] *)
Fixpoint map_each {A B} (f : A -> outcome B) (items : list A) : outcome (list B) :=
  match items with
  | [] => Returned []
  | x :: rest =>
      let! y := f x in
      let! ys := map_each f rest in
      Returned (y :: ys)
  end.

(** [sep.join(parts)]: every part has to be a [str]. *)
Definition as_str (v : json) : outcome string :=
  match v with JStr s => Returned s | _ => Raised TypeError end.

Definition py_join (sep : string) (parts : list json) : outcome string :=
  let! ss := map_each as_str parts in Returned (join sep ss).

(** [sep.join(map(str, v))] *)
Definition py_join_str (sep : string) (v : json) : outcome string :=
  let! xs := py_iter v in Returned (join sep (map py_str xs)).


(** A line feed; string literals here have no escapes. *)
Definition nl : string := String (ascii_of_nat 10) "".

(** ** The transport

    [requests.get(url, params=...)], [response.raise_for_status()] and
    [response.json()] belong to the HTTP library.  One exchange either
    yields the decoded body or stops with an exception raised by one of the
    three calls. *)

Record request : Type := { req_url : string; req_params : dict }.

Inductive stage : Type :=
| AtGet       (* requests.get: connection, timeout, ... *)
| AtStatus    (* raise_for_status: HTTPError on an error status *)
| AtJson.     (* response.json: the body does not decode *)

Inductive reply : Type :=
| Replied (body : json)
| Failed (at_stage : stage) (e : exn).

Definition transport := request -> reply.

(** Computations that talk to the network: they read the transport, append
    every request they issue to the log, and return or raise. *)
Definition Net (A : Type) : Type :=
  transport -> list request -> outcome A * list request.

Definition ret {A} (a : A) : Net A := fun _ log => (Returned a, log).

Definition lift {A} (m : outcome A) : Net A := fun _ log => (m, log).

Definition bind {A B} (m : Net A) (f : A -> Net B) : Net B :=
  fun net log =>
    match m net log with
    | (Returned a, log') => f a net log'
    | (Raised e, log') => (Raised e, log')
    end.

Notation "x <- m ;; k" := (bind m (fun x => k))
  (at level 61, m at next level, right associativity) : py_scope.

(** ** tmdb_api.py *)

Definition TMDB_API_BASE_URL : string := "https://api.themoviedb.org/3".

Definition is_none (v : json) : bool :=
  match v with JNull => true | _ => false end.

(** [v is not None], on an item of a dict *)
Definition not_none (kv : string * json) : bool := negb (is_none (snd kv)).

(** The parameter set handed to [requests.get]: a copy of [params] (or an
    empty dict), the key added, [None] values removed. *)
Definition request_params (api_key : json) (params : option dict) : dict :=
  let request_params :=
    match params with
    | Some p => if py_truthy (JDict p) then p else []
    | None => []
    end in
  let request_params := dict_set "api_key" api_key request_params in
  filter not_none request_params.

(** The [try] block: the body when the three calls return, the handler's
    dict for an exception of the [RequestException] family ([str(e)] is
    its text; the [print] goes to standard output and is not tracked), and
    any other exception passes through. *)
Definition received (r : reply) : outcome json :=
  match r with
  | Replied body => Returned body
  | Failed _ (RequestException text) => Returned (JDict [("error", JStr text)])
  | Failed _ e => Raised e
  end.

Definition tmdb_request (api_key : json) (endpoint : string) (params : option dict)
  : Net json :=
  fun net log =>
    let url := TMDB_API_BASE_URL ++ endpoint in
    let req := {| req_url := url; req_params := request_params api_key params |} in
    (received (net req), (log ++ [req])%list).

(** A keyword argument with a default: [None] is an argument the caller
    did not pass. *)
Definition arg_or (default : json) (a : option json) : json :=
  match a with Some v => v | None => default end.

Definition en_US : json := JStr "en-US".

Definition search_movie (api_key query : json)
    (language page include_adult region year primary_release_year : option json)
  : Net json :=
  let endpoint := "/search/movie" in
  let params :=
    [ ("query", query);
      ("language", arg_or en_US language);
      ("page", arg_or (JInt 1) page);
      ("include_adult", arg_or (JBool false) include_adult);
      ("region", arg_or JNull region);
      ("year", arg_or JNull year);
      ("primary_release_year", arg_or JNull primary_release_year) ] in
  tmdb_request api_key endpoint (Some params).

Definition get_movie_details (api_key movie_id : json) (language : option json)
  : Net json :=
  let endpoint := "/movie/" ++ py_str movie_id in
  let params := [ ("language", arg_or en_US language) ] in
  tmdb_request api_key endpoint (Some params).

Definition discover_movies (api_key : json)
    (language region sort_by include_adult include_video page
     primary_release_year primary_release_date_gte primary_release_date_lte
     with_genres with_cast with_crew with_keywords
     with_runtime_gte with_runtime_lte : option json)
  : Net json :=
  let endpoint := "/discover/movie" in
  let params :=
    [ ("language", arg_or en_US language);
      ("region", arg_or JNull region);
      ("sort_by", arg_or (JStr "popularity.desc") sort_by);
      ("include_adult", arg_or (JBool false) include_adult);
      ("include_video", arg_or (JBool false) include_video);
      ("page", arg_or (JInt 1) page);
      ("primary_release_year", arg_or JNull primary_release_year);
      ("primary_release_date.gte", arg_or JNull primary_release_date_gte);
      ("primary_release_date.lte", arg_or JNull primary_release_date_lte);
      ("with_genres", arg_or JNull with_genres);
      ("with_cast", arg_or JNull with_cast);
      ("with_crew", arg_or JNull with_crew);
      ("with_keywords", arg_or JNull with_keywords);
      ("with_runtime.gte", arg_or JNull with_runtime_gte);
      ("with_runtime.lte", arg_or JNull with_runtime_lte) ] in
  tmdb_request api_key endpoint (Some params).

Definition get_trending_movies (api_key : json) (time_window language : option json)
  : Net json :=
  let endpoint := "/trending/movie/" ++ py_str (arg_or (JStr "week") time_window) in
  let params := [ ("language", arg_or en_US language) ] in
  tmdb_request api_key endpoint (Some params).

Definition get_movie_recommendations (api_key movie_id : json) (language : option json)
  : Net json :=
  let endpoint := "/movie/" ++ py_str movie_id ++ "/recommendations" in
  let params := [ ("language", arg_or en_US language) ] in
  tmdb_request api_key endpoint (Some params).

Definition get_movie_credits (api_key movie_id : json) (language : option json)
  : Net json :=
  let endpoint := "/movie/" ++ py_str movie_id ++ "/credits" in
  let params := [ ("language", arg_or en_US language) ] in
  tmdb_request api_key endpoint (Some params).

Definition get_person_details (api_key person_id : json)
    (language append_to_response : option json)
  : Net json :=
  let endpoint := "/person/" ++ py_str person_id in
  let params :=
    [ ("language", arg_or en_US language);
      ("append_to_response",
       py_or (arg_or JNull append_to_response) (JStr "movie_credits")) ] in
  tmdb_request api_key endpoint (Some params).

Definition get_genre_list (api_key : json) (language : option json) : Net json :=
  let endpoint := "/genre/movie/list" in
  let params := [ ("language", arg_or en_US language) ] in
  tmdb_request api_key endpoint (Some params).

Definition get_upcoming_movies (api_key : json) (language region : option json)
  : Net json :=
  let endpoint := "/movie/upcoming" in
  let params :=
    [ ("language", arg_or en_US language);
      ("region", arg_or JNull region) ] in
  tmdb_request api_key endpoint (Some params).

Definition get_now_playing_movies (api_key : json) (language region : option json)
  : Net json :=
  let endpoint := "/movie/now_playing" in
  let params :=
    [ ("language", arg_or en_US language);
      ("region", arg_or JNull region) ] in
  tmdb_request api_key endpoint (Some params).

Definition get_similar_movies (api_key movie_id : json) (language : option json)
  : Net json :=
  let endpoint := "/movie/" ++ py_str movie_id ++ "/similar" in
  let params := [ ("language", arg_or en_US language) ] in
  tmdb_request api_key endpoint (Some params).

Definition multi_search (api_key query : json)
    (language page include_adult region : option json)
  : Net json :=
  let endpoint := "/search/multi" in
  let params :=
    [ ("query", query);
      ("language", arg_or en_US language);
      ("page", arg_or (JInt 1) page);
      ("include_adult", arg_or (JBool false) include_adult);
      ("region", arg_or JNull region) ] in
  tmdb_request api_key endpoint (Some params).

(** ** app.py: presentation

    Each tool reads its arguments from [args], calls the client and turns
    the returned value into text.  The text is what the tool wraps in a
    [SwaigFunctionResult]. *)

(** [args.get(k, default)]; [args.get(k)] has default [None]. *)
Definition args_get (args : dict) (k : string) (default : json) : json :=
  match dict_get k args with Some v => v | None => default end.

(** The shape ten of the twelve tools share: an error line when the key
    ["error"] is in the result, a fixed sentence when the list under [field]
    is missing or falsy, otherwise a header and one line per item, the list
    cut to [cap] items when the tool slices it. *)
Definition format_listing (error_prefix none_found header field : string)
    (cap : option nat) (line : json -> outcome string) (result : json)
  : outcome string :=
  let! failed := py_in "error" result in
  if failed then
    let! e := py_item result "error" in
    Returned (error_prefix ++ py_str e)
  else
    let! found := py_get result field JNull in
    if negb (py_truthy found) then Returned none_found
    else
      let! items := py_get result field (JList []) in
      let! items := match cap with
                    | Some n => py_slice n items
                    | None => Returned items
                    end in
      let! items := py_iter items in
      for_each line items header.

(** [movie.get("release_date", "")[:4] if movie.get("release_date") else "N/A"],
    for the key [k]. *)
Definition year_of (item : json) (k : string) : outcome json :=
  let! d := py_get item k JNull in
  if py_truthy d then
    let! d := py_get item k (JStr "") in py_slice 4 d
  else Returned (JStr "N/A").

(** The loop body of the search, recommendation, trending, discover and
    similar tools. *)
Definition movie_line (movie : json) : outcome string :=
  let! title := py_get movie "title" (JStr "Unknown") in
  let! year := year_of movie "release_date" in
  let! movie_id := py_get movie "id" (JStr "") in
  let! genre_ids := py_get movie "genre_ids" (JList []) in
  let! genres := py_join_str ", " genre_ids in
  Returned ("id: " ++ py_str movie_id ++ " title: " ++ py_str title
            ++ " release_date: " ++ py_str year
            ++ " genre_ids: " ++ genres ++ nl).

(** The loop body of the upcoming and now-playing tools. *)
Definition release_line (movie : json) : outcome string :=
  let! title := py_get movie "title" (JStr "Unknown") in
  let! release_date := py_get movie "release_date" (JStr "N/A") in
  let! movie_id := py_get movie "id" (JStr "") in
  let! genre_ids := py_get movie "genre_ids" (JList []) in
  let! genres := py_join_str ", " genre_ids in
  Returned ("id: " ++ py_str movie_id ++ " title: " ++ py_str title
            ++ " release_date: " ++ py_str release_date
            ++ " genre_ids: " ++ genres ++ nl).

Definition genre_line (genre : json) : outcome string :=
  let! name := py_item genre "name" in
  let! id := py_item genre "id" in
  Returned ("name: " ++ py_str name ++ " id: " ++ py_str id ++ nl).

(** [k.get('title', k.get('name', 'Unknown'))] *)
Definition known_for_title (k : json) : outcome json :=
  let! name := py_get k "name" (JStr "Unknown") in
  py_get k "title" name.

(** The loop body of the multi-search tool: three branches on
    [media_type]; any other value leaves [formatted] as it is. *)
Definition multi_line (item : json) : outcome string :=
  let! media_type := py_get item "media_type" (JStr "unknown") in
  if is_str "movie" media_type then
    let! title := py_get item "title" (JStr "Unknown") in
    let! year := year_of item "release_date" in
    let! genre_ids := py_get item "genre_ids" (JList []) in
    let! id := py_item item "id" in
    let! genres := py_join_str ", " genre_ids in
    Returned ("movie: id: " ++ py_str id ++ " title: " ++ py_str title
              ++ " release_date: " ++ py_str year
              ++ " genre_ids: " ++ genres ++ nl)
  else if is_str "tv" media_type then
    let! name := py_get item "name" (JStr "Unknown") in
    let! year := year_of item "first_air_date" in
    let! genre_ids := py_get item "genre_ids" (JList []) in
    let! id := py_item item "id" in
    let! genres := py_join_str ", " genre_ids in
    Returned ("tv show: id: " ++ py_str id ++ " name: " ++ py_str name
              ++ " first_air_date: " ++ py_str year
              ++ " genre_ids: " ++ genres ++ nl)
  else if is_str "person" media_type then
    let! name := py_get item "name" (JStr "Unknown") in
    let! known_for := py_get item "known_for_department" (JStr "N/A") in
    let! credits := py_get item "known_for" (JList []) in
    let! credits := py_iter credits in
    let! titles := map_each known_for_title credits in
    let! known_for_titles := py_join ", " titles in
    let! id := py_item item "id" in
    Returned ("person: id: " ++ py_str id ++ " name: " ++ py_str name
              ++ " known_for: " ++ known_for_titles
              ++ " department: " ++ py_str known_for ++ nl)
  else Returned "".

Definition cast_line (member : json) : outcome string :=
  let! name := py_item member "name" in
  let! character := py_get member "character" (JStr "N/A") in
  Returned ("name: " ++ py_str name ++ " character: " ++ py_str character ++ nl).

Definition crew_line (member : json) : outcome string :=
  let! name := py_item member "name" in
  let! department := py_get member "department" (JStr "N/A") in
  let! job := py_get member "job" (JStr "N/A") in
  Returned ("name: " ++ py_str name ++ " department: " ++ py_str department
            ++ " job: " ++ py_str job ++ nl).

(** [formatted += label; for member in result[k][:10]: ...] when [k] is in
    [result]. *)
Definition credits_section (k label : string) (line : json -> outcome string)
    (result : json) (formatted : string) : outcome string :=
  let! present := py_in k result in
  if present then
    let! members := py_item result k in
    let! members := py_slice 10 members in
    let! members := py_iter members in
    for_each line members (formatted ++ label ++ nl)
  else Returned formatted.

(** *** [sorted(items, key=..., reverse=True)]

    A stable sort into descending key order: entries with equal keys keep
    their order.  No comparison is made on fewer than two entries.  Python
    orders numbers ([bool] counts as 0 or 1) among themselves and [str]
    among themselves, by code point; two keys of classes it cannot order
    ([None], a [dict], a number against a [str]) end the sort with a
    [TypeError].  Keys that are all lists are compared element by element
    by Python; they are not ordered here and come out as [TypeError]. *)

Fixpoint insert_desc {K A} (gtb : K -> K -> bool) (x : K * A) (s : list (K * A))
  : list (K * A) :=
  match s with
  | [] => [x]
  | y :: s' => if gtb (fst y) (fst x) then y :: insert_desc gtb x s' else x :: y :: s'
  end.

Fixpoint sort_desc {K A} (gtb : K -> K -> bool) (l : list (K * A)) : list (K * A) :=
  match l with
  | [] => []
  | x :: l' => insert_desc gtb x (sort_desc gtb l')
  end.

Definition num_key (v : json) : option Z :=
  match v with
  | JInt z => Some z
  | JBool b => Some (if b then 1 else 0)
  | _ => None
  end.

Definition str_key (v : json) : option string :=
  match v with JStr s => Some s | _ => None end.

Fixpoint keyed_as {K A} (as_key : json -> option K) (l : list (json * A))
  : option (list (K * A)) :=
  match l with
  | [] => Some []
  | (k, x) :: l' =>
      match as_key k, keyed_as as_key l' with
      | Some k', Some r => Some ((k', x) :: r)
      | _, _ => None
      end
  end.

Definition sorted_desc (keyed : list (json * json)) : outcome (list json) :=
  match keyed with
  | [] | [_] => Returned (map snd keyed)
  | _ =>
      match keyed_as num_key keyed with
      | Some l => Returned (map snd (sort_desc Z.gtb l))
      | None =>
          match keyed_as str_key keyed with
          | Some l => Returned (map snd (sort_desc (fun a b => String.ltb b a) l))
          | None => Raised TypeError
          end
      end
  end.

(** [sorted(cast, key=lambda x: x.get("popularity", 0), reverse=True)]: the
    keys of all entries are computed before any comparison. *)
Definition sorted_by_popularity (cast : json) : outcome (list json) :=
  let! entries := py_iter cast in
  let! keyed := map_each (fun x => let! k := py_get x "popularity" (JInt 0) in
                                   Returned (k, x)) entries in
  sorted_desc keyed.

(** The "known for" titles of a person: [[]] without ["movie_credits"]. *)
Definition known_for_titles (result : json) : outcome (list json) :=
  let! present := py_in "movie_credits" result in
  if present then
    let! credits := py_item result "movie_credits" in
    let! cast := py_get credits "cast" (JList []) in
    let! sorted_all := sorted_by_popularity cast in
    let sorted_cast := firstn 5 sorted_all in
    map_each (fun m => py_get m "title" (JStr "Unknown")) sorted_cast
  else Returned [].

(** [', '.join(x['name'] for x in result.get(field, []))] *)
Definition joined_names (result : json) (field : string) : outcome string :=
  let! l := py_get result field (JList []) in
  let! xs := py_iter l in
  let! names := map_each (fun x => py_item x "name") xs in
  py_join ", " names.

(** ["error" in result or "id" not in result] *)
Definition no_details (result : json) : outcome bool :=
  let! failed := py_in "error" result in
  if failed then Returned true
  else let! has_id := py_in "id" result in Returned (negb has_id).

(** A field of the details block: [label: {result.get(k, default)}suffix\n]. *)
Definition field_or (result : json) (k : string) (default : json) : outcome string :=
  let! v := py_get result k default in Returned (py_str v).

Definition format_movie_details (movie_id result : json) : outcome string :=
  let! missing := no_details result in
  if missing then
    Returned ("No details found for movie ID " ++ py_str movie_id ++ ".")
  else
    let! genres := joined_names result "genres" in
    let! production_companies := joined_names result "production_companies" in
    let! spoken_languages := joined_names result "spoken_languages" in
    let! id := py_item result "id" in
    let! title := py_item result "title" in
    let! original_title := field_or result "original_title" (JStr "N/A") in
    let! release_date := field_or result "release_date" (JStr "N/A") in
    let! runtime := field_or result "runtime" (JStr "N/A") in
    let! overview := field_or result "overview" (JStr "N/A") in
    let! vote_average := field_or result "vote_average" (JStr "N/A") in
    let! vote_count := field_or result "vote_count" (JStr "N/A") in
    let! popularity := field_or result "popularity" (JStr "N/A") in
    let! original_language := field_or result "original_language" (JStr "N/A") in
    let! budget := field_or result "budget" (JInt 0) in
    let! revenue := field_or result "revenue" (JInt 0) in
    let! status := field_or result "status" (JStr "N/A") in
    let! tagline := field_or result "tagline" (JStr "N/A") in
    Returned ("Movie details:" ++ nl
              ++ "id: " ++ py_str id ++ nl
              ++ "title: " ++ py_str title ++ nl
              ++ "original_title: " ++ original_title ++ nl
              ++ "release_date: " ++ release_date ++ nl
              ++ "runtime: " ++ runtime ++ " minutes" ++ nl
              ++ "overview: " ++ overview ++ nl
              ++ "vote_average: " ++ vote_average ++ nl
              ++ "vote_count: " ++ vote_count ++ nl
              ++ "popularity: " ++ popularity ++ nl
              ++ "genres: " ++ genres ++ nl
              ++ "original_language: " ++ original_language ++ nl
              ++ "spoken_languages: " ++ spoken_languages ++ nl
              ++ "production_companies: " ++ production_companies ++ nl
              ++ "budget: $" ++ budget ++ nl
              ++ "revenue: $" ++ revenue ++ nl
              ++ "status: " ++ status ++ nl
              ++ "tagline: " ++ tagline).

Definition format_person_details (person_id result : json) : outcome string :=
  let! missing := no_details result in
  if missing then
    Returned ("No details found for person ID " ++ py_str person_id ++ ".")
  else
    let! known_for_titles := known_for_titles result in
    let! name := field_or result "name" (JStr "N/A") in
    let! biography := field_or result "biography" (JStr "N/A") in
    let! birthday := field_or result "birthday" (JStr "N/A") in
    let! place_of_birth := field_or result "place_of_birth" (JStr "N/A") in
    let! known_for := if py_truthy (JList known_for_titles)
                      then py_join ", " known_for_titles
                      else Returned "N/A" in
    Returned ("Person details:" ++ nl
              ++ "name: " ++ name ++ nl
              ++ "biography: " ++ biography ++ nl
              ++ "birthday: " ++ birthday ++ nl
              ++ "place_of_birth: " ++ place_of_birth ++ nl
              ++ "known_for: " ++ known_for).

Definition format_movie_credits (movie_id result : json) : outcome string :=
  let! failed := py_in "error" result in
  if failed then
    let! e := py_item result "error" in
    Returned ("Error getting movie credits: " ++ py_str e)
  else
    let! has_cast := py_in "cast" result in
    let! none := if has_cast then Returned false
                 else let! has_crew := py_in "crew" result in
                      Returned (negb has_crew) in
    if none then
      Returned ("No credits found for movie ID " ++ py_str movie_id ++ ".")
    else
      let formatted := "Movie credits:" ++ nl in
      let! formatted := credits_section "cast" "cast:" cast_line result formatted in
      credits_section "crew" "crew:" crew_line result formatted.

Definition format_search_movie (query : json) : json -> outcome string :=
  format_listing "Error searching for movies: "
    ("No movies found for '" ++ py_str query ++ "'.")
    ("Search results for movies:" ++ nl) "results" (Some 5%nat) movie_line.

Definition format_movie_recommendations (movie_id : json) : json -> outcome string :=
  format_listing "Error getting recommendations: "
    ("No recommendations found for movie ID " ++ py_str movie_id ++ ".")
    ("Recommended movies:" ++ nl) "results" (Some 5%nat) movie_line.

Definition format_trending_movies (time_window : json) : json -> outcome string :=
  format_listing "Error getting trending movies: "
    "No trending movies found."
    ("Trending movies for this " ++ py_str time_window ++ ":" ++ nl)
    "results" (Some 5%nat) movie_line.

Definition format_discover_movies : json -> outcome string :=
  format_listing "Error discovering movies: "
    "No movies found matching the criteria."
    ("Discovered movies:" ++ nl) "results" (Some 5%nat) movie_line.

Definition format_genre_list : json -> outcome string :=
  format_listing "Error getting genre list: "
    "No genre information available."
    ("Available movie genres:" ++ nl) "genres" None genre_line.

Definition format_upcoming_movies : json -> outcome string :=
  format_listing "Error getting upcoming movies: "
    "No upcoming movie releases found."
    ("Upcoming movies:" ++ nl) "results" (Some 10%nat) release_line.

Definition format_now_playing_movies : json -> outcome string :=
  format_listing "Error getting now playing movies: "
    "No movies currently playing in theaters found."
    ("Movies currently playing in theaters:" ++ nl) "results" (Some 10%nat)
    release_line.

Definition format_similar_movies (movie_id : json) : json -> outcome string :=
  format_listing "Error getting similar movies: "
    ("No similar movies found for movie ID " ++ py_str movie_id ++ ".")
    ("Similar movies:" ++ nl) "results" (Some 5%nat) movie_line.

Definition format_multi_search (query : json) : json -> outcome string :=
  format_listing "Error in multi-search: "
    ("No results found for '" ++ py_str query ++ "'.")
    ("Multi-search results:" ++ nl) "results" (Some 10%nat) multi_line.

(** ** app.py: the tools

    [api_key] is [self.tmdb_api_key]; [raw_data] is never read. *)

Definition search_movie_tool (api_key : json) (args : dict) : Net string :=
  let query := args_get args "query" (JStr "") in
  let language := args_get args "language" en_US in
  let year := args_get args "year" JNull in
  let primary_release_year := args_get args "primary_release_year" JNull in
  result <- search_movie api_key query (Some language) None None None
              (Some year) (Some primary_release_year) ;;
  lift (format_search_movie query result).

Definition get_movie_details_tool (api_key : json) (args : dict) : Net string :=
  let movie_id := args_get args "movie_id" JNull in
  let language := args_get args "language" en_US in
  if negb (py_truthy movie_id) then ret "Error: Movie ID is required."
  else
    result <- get_movie_details api_key movie_id (Some language) ;;
    lift (format_movie_details movie_id result).

Definition get_movie_recommendations_tool (api_key : json) (args : dict) : Net string :=
  let movie_id := args_get args "movie_id" JNull in
  let language := args_get args "language" en_US in
  if negb (py_truthy movie_id) then ret "Error: Movie ID is required."
  else
    result <- get_movie_recommendations api_key movie_id (Some language) ;;
    lift (format_movie_recommendations movie_id result).

Definition get_trending_movies_tool (api_key : json) (args : dict) : Net string :=
  let time_window := args_get args "time_window" (JStr "week") in
  let language := args_get args "language" en_US in
  result <- get_trending_movies api_key (Some time_window) (Some language) ;;
  lift (format_trending_movies time_window result).

Definition discover_movies_tool (api_key : json) (args : dict) : Net string :=
  let with_genres := args_get args "with_genres" JNull in
  let primary_release_year := args_get args "primary_release_year" JNull in
  let sort_by := args_get args "sort_by" (JStr "popularity.desc") in
  let language := args_get args "language" en_US in
  let with_cast := args_get args "with_cast" JNull in
  let with_crew := args_get args "with_crew" JNull in
  result <- discover_movies api_key (Some language) None (Some sort_by) None None None
              (Some primary_release_year) None None
              (Some with_genres) (Some with_cast) (Some with_crew) None None None ;;
  lift (format_discover_movies result).

Definition get_genre_list_tool (api_key : json) (args : dict) : Net string :=
  let language := args_get args "language" en_US in
  result <- get_genre_list api_key (Some language) ;;
  lift (format_genre_list result).

Definition get_upcoming_movies_tool (api_key : json) (args : dict) : Net string :=
  let language := args_get args "language" en_US in
  let region := args_get args "region" JNull in
  result <- get_upcoming_movies api_key (Some language) (Some region) ;;
  lift (format_upcoming_movies result).

Definition get_now_playing_movies_tool (api_key : json) (args : dict) : Net string :=
  let language := args_get args "language" en_US in
  let region := args_get args "region" JNull in
  result <- get_now_playing_movies api_key (Some language) (Some region) ;;
  lift (format_now_playing_movies result).

Definition get_similar_movies_tool (api_key : json) (args : dict) : Net string :=
  let movie_id := args_get args "movie_id" JNull in
  let language := args_get args "language" en_US in
  if negb (py_truthy movie_id) then ret "Error: Movie ID is required."
  else
    result <- get_similar_movies api_key movie_id (Some language) ;;
    lift (format_similar_movies movie_id result).

Definition multi_search_tool (api_key : json) (args : dict) : Net string :=
  let query := args_get args "query" (JStr "") in
  let language := args_get args "language" en_US in
  result <- multi_search api_key query (Some language) None None None ;;
  lift (format_multi_search query result).

Definition get_movie_credits_tool (api_key : json) (args : dict) : Net string :=
  let movie_id := args_get args "movie_id" JNull in
  let language := args_get args "language" en_US in
  if negb (py_truthy movie_id) then ret "Error: Movie ID is required."
  else
    result <- get_movie_credits api_key movie_id (Some language) ;;
    lift (format_movie_credits movie_id result).

Definition get_person_details_tool (api_key : json) (args : dict) : Net string :=
  let person_id := args_get args "person_id" JNull in
  let language := args_get args "language" en_US in
  if negb (py_truthy person_id) then ret "Error: Person ID is required."
  else
    result <- get_person_details api_key person_id (Some language) None ;;
    lift (format_person_details person_id result).

(** ** The operations, as data

    One constructor per wrapper of [tmdb_request], carrying the arguments
    of the call; [invoke] makes the call. *)

Inductive call : Type :=
| SearchMovie (query : json)
    (language page include_adult region year primary_release_year : option json)
| GetMovieDetails (movie_id : json) (language : option json)
| DiscoverMovies
    (language region sort_by include_adult include_video page
     primary_release_year primary_release_date_gte primary_release_date_lte
     with_genres with_cast with_crew with_keywords
     with_runtime_gte with_runtime_lte : option json)
| GetTrendingMovies (time_window language : option json)
| GetMovieRecommendations (movie_id : json) (language : option json)
| GetMovieCredits (movie_id : json) (language : option json)
| GetPersonDetails (person_id : json) (language append_to_response : option json)
| GetGenreList (language : option json)
| GetUpcomingMovies (language region : option json)
| GetNowPlayingMovies (language region : option json)
| GetSimilarMovies (movie_id : json) (language : option json)
| MultiSearch (query : json) (language page include_adult region : option json).

Definition invoke (api_key : json) (c : call) : Net json :=
  match c with
  | SearchMovie q l p a r y pry => search_movie api_key q l p a r y pry
  | GetMovieDetails m l => get_movie_details api_key m l
  | DiscoverMovies l r s a v p pry gte lte g c w k rg rl =>
      discover_movies api_key l r s a v p pry gte lte g c w k rg rl
  | GetTrendingMovies t l => get_trending_movies api_key t l
  | GetMovieRecommendations m l => get_movie_recommendations api_key m l
  | GetMovieCredits m l => get_movie_credits api_key m l
  | GetPersonDetails p l a => get_person_details api_key p l a
  | GetGenreList l => get_genre_list api_key l
  | GetUpcomingMovies l r => get_upcoming_movies api_key l r
  | GetNowPlayingMovies l r => get_now_playing_movies api_key l r
  | GetSimilarMovies m l => get_similar_movies api_key m l
  | MultiSearch q l p a r => multi_search api_key q l p a r
  end.

(** The arguments a call sends as query parameters, under their wire
    names, with the value each has once the defaults are filled in: those
    of the signature, and ["movie_credits"] for [append_to_response] of
    the person lookup when it is unset or empty.  [None] is left for an
    optional argument that is unset and has no default.  Identifiers and
    the trending window go into the path instead. *)
Definition query_arguments (c : call) : dict :=
  match c with
  | SearchMovie q l p a r y pry =>
      [ ("query", q); ("language", arg_or en_US l); ("page", arg_or (JInt 1) p);
        ("include_adult", arg_or (JBool false) a); ("region", arg_or JNull r);
        ("year", arg_or JNull y); ("primary_release_year", arg_or JNull pry) ]
  | DiscoverMovies l r s a v p pry gte lte g c w k rg rl =>
      [ ("language", arg_or en_US l); ("region", arg_or JNull r);
        ("sort_by", arg_or (JStr "popularity.desc") s);
        ("include_adult", arg_or (JBool false) a);
        ("include_video", arg_or (JBool false) v);
        ("page", arg_or (JInt 1) p);
        ("primary_release_year", arg_or JNull pry);
        ("primary_release_date.gte", arg_or JNull gte);
        ("primary_release_date.lte", arg_or JNull lte);
        ("with_genres", arg_or JNull g); ("with_cast", arg_or JNull c);
        ("with_crew", arg_or JNull w); ("with_keywords", arg_or JNull k);
        ("with_runtime.gte", arg_or JNull rg); ("with_runtime.lte", arg_or JNull rl) ]
  | GetPersonDetails _ l a =>
      [ ("language", arg_or en_US l);
        ("append_to_response", py_or (arg_or JNull a) (JStr "movie_credits")) ]
  | GetUpcomingMovies l r | GetNowPlayingMovies l r =>
      [ ("language", arg_or en_US l); ("region", arg_or JNull r) ]
  | MultiSearch q l p a r =>
      [ ("query", q); ("language", arg_or en_US l); ("page", arg_or (JInt 1) p);
        ("include_adult", arg_or (JBool false) a); ("region", arg_or JNull r) ]
  | GetMovieDetails _ l | GetMovieRecommendations _ l | GetMovieCredits _ l
  | GetSimilarMovies _ l | GetTrendingMovies _ l | GetGenreList l =>
      [ ("language", arg_or en_US l) ]
  end.

(** The requests a call issues: the log it leaves behind, starting from an
    empty one.  ([invoke_log] below: the log does not depend on what the
    transport answers.) *)
Definition issued (api_key : json) (c : call) : list request :=
  snd (invoke api_key c (fun _ => Replied JNull) []).

(** ** Vocabulary of the properties *)

(** A transport on which every exchange fails inside the HTTP library:
    at some stage, with an exception of the [RequestException] family
    whose text is [text]. *)
Definition transport_fails (net : transport) (text : string) : Prop :=
  forall req, exists st, net req = Failed st (RequestException text).

(** A transport that answers every request with an error status. *)
Definition refused : transport :=
  fun _ => Failed AtStatus (RequestException "401 Client Error: Unauthorized").


(** The parameter set of the request a call sends. *)
Definition sent (api_key : json) (c : call) : dict :=
  match issued api_key c with
  | req :: _ => req_params req
  | [] => []
  end.

(** "An argument left unset is absent from the outgoing parameter set",
    for one call. *)
Definition unset_means_absent (api_key : json) (c : call) : Prop :=
  forall k, In (k, JNull) (query_arguments c) -> ~ In k (dict_keys (sent api_key c)).

(** "An argument that is set, or has a default, is in the outgoing
    parameter set exactly once, with its value", for one call. *)
Definition set_means_sent_once (api_key : json) (c : call) : Prop :=
  forall k v, In (k, v) (query_arguments c) -> v <> JNull ->
    count_occ string_dec (dict_keys (sent api_key c)) k = 1%nat
    /\ dict_get k (sent api_key c) = Some v.

(** The four tools that take ["movie_id"]. *)
Definition movie_id_tools : list (json -> dict -> Net string) :=
  [ get_movie_details_tool; get_movie_recommendations_tool;
    get_similar_movies_tool; get_movie_credits_tool ].

(** The presentation step of each tool, with the argument its sentences
    quote. *)
Inductive rendering : Type :=
| OfSearch (query : json)
| OfDetails (movie_id : json)
| OfRecommendations (movie_id : json)
| OfTrending (time_window : json)
| OfDiscover
| OfGenres
| OfUpcoming
| OfNowPlaying
| OfSimilar (movie_id : json)
| OfMultiSearch (query : json)
| OfCredits (movie_id : json)
| OfPerson (person_id : json).

Definition present (r : rendering) : json -> outcome string :=
  match r with
  | OfSearch query => format_search_movie query
  | OfDetails movie_id => format_movie_details movie_id
  | OfRecommendations movie_id => format_movie_recommendations movie_id
  | OfTrending time_window => format_trending_movies time_window
  | OfDiscover => format_discover_movies
  | OfGenres => format_genre_list
  | OfUpcoming => format_upcoming_movies
  | OfNowPlaying => format_now_playing_movies
  | OfSimilar movie_id => format_similar_movies movie_id
  | OfMultiSearch query => format_multi_search query
  | OfCredits movie_id => format_movie_credits movie_id
  | OfPerson person_id => format_person_details person_id
  end.

(** The words that open the line a failure is reported on; the two detail
    lookups have no such line. *)
Definition error_prefix (r : rendering) : option string :=
  match r with
  | OfSearch _ => Some "Error searching for movies: "
  | OfRecommendations _ => Some "Error getting recommendations: "
  | OfTrending _ => Some "Error getting trending movies: "
  | OfDiscover => Some "Error discovering movies: "
  | OfGenres => Some "Error getting genre list: "
  | OfUpcoming => Some "Error getting upcoming movies: "
  | OfNowPlaying => Some "Error getting now playing movies: "
  | OfSimilar _ => Some "Error getting similar movies: "
  | OfMultiSearch _ => Some "Error in multi-search: "
  | OfCredits _ => Some "Error getting movie credits: "
  | OfDetails _ | OfPerson _ => None
  end.

(** The sentence for a payload with nothing to show. *)
Definition nothing_found (r : rendering) : string :=
  match r with
  | OfSearch query => "No movies found for '" ++ py_str query ++ "'."
  | OfDetails movie_id => "No details found for movie ID " ++ py_str movie_id ++ "."
  | OfRecommendations movie_id =>
      "No recommendations found for movie ID " ++ py_str movie_id ++ "."
  | OfTrending _ => "No trending movies found."
  | OfDiscover => "No movies found matching the criteria."
  | OfGenres => "No genre information available."
  | OfUpcoming => "No upcoming movie releases found."
  | OfNowPlaying => "No movies currently playing in theaters found."
  | OfSimilar movie_id => "No similar movies found for movie ID " ++ py_str movie_id ++ "."
  | OfMultiSearch query => "No results found for '" ++ py_str query ++ "'."
  | OfCredits movie_id => "No credits found for movie ID " ++ py_str movie_id ++ "."
  | OfPerson person_id => "No details found for person ID " ++ py_str person_id ++ "."
  end.

(** A success payload with nothing to show: no ["error"] key, and no
    items (a missing or falsy list; for credits neither ["cast"] nor
    ["crew"]; for the detail lookups no ["id"]). *)
Definition empty_payload (r : rendering) (d : dict) : Prop :=
  dict_get "error" d = None
  /\ match r with
     | OfCredits _ => dict_get "cast" d = None /\ dict_get "crew" d = None
     | OfDetails _ | OfPerson _ => dict_get "id" d = None
     | OfGenres => py_truthy (args_get d "genres" JNull) = false
     | _ => py_truthy (args_get d "results" JNull) = false
     end.

(** "A failure indicator is rendered with its message in it, and not as
    an empty success payload is", for one tool. *)
Definition failure_is_told_apart (r : rendering) : Prop :=
  forall d text, dict_get "error" d = Some (JStr text) ->
    exists s, present r (JDict d) = Returned s
              /\ str_infix text s = true
              /\ forall d', empty_payload r d' -> present r (JDict d') <> Returned s.

(** The text of a run of lines, one after the other. *)
Definition lines_text (lines : list string) : string := fold_right append "" lines.



(** The tools that list the items under ["results"]: the cap, the loop
    body and the header of each. *)
Definition listing_of (r : rendering) : option (nat * (json -> outcome string) * string) :=
  match r with
  | OfSearch _ => Some (5%nat, movie_line, "Search results for movies:" ++ nl)
  | OfRecommendations _ => Some (5%nat, movie_line, "Recommended movies:" ++ nl)
  | OfTrending w =>
      Some (5%nat, movie_line, "Trending movies for this " ++ py_str w ++ ":" ++ nl)
  | OfDiscover => Some (5%nat, movie_line, "Discovered movies:" ++ nl)
  | OfSimilar _ => Some (5%nat, movie_line, "Similar movies:" ++ nl)
  | OfUpcoming => Some (10%nat, release_line, "Upcoming movies:" ++ nl)
  | OfNowPlaying =>
      Some (10%nat, release_line, "Movies currently playing in theaters:" ++ nl)
  | OfMultiSearch _ => Some (10%nat, multi_line, "Multi-search results:" ++ nl)
  | OfGenres | OfCredits _ | OfDetails _ | OfPerson _ => None
  end.

(** The values of [media_type] the multi-search loop has a branch for. *)
Definition recognised (item : json) : bool :=
  match item with
  | JDict d =>
      let media_type := args_get d "media_type" (JStr "unknown") in
      is_str "movie" media_type || is_str "tv" media_type || is_str "person" media_type
  | _ => false
  end.




(** The item lines the tools write. *)
Inductive line_kind : Type :=
| MovieLine      (* search, recommendations, trending, discover, similar *)
| ReleaseLine    (* upcoming, now playing *)
| MultiMovie | MultiTv | MultiPerson
| CastLine | CrewLine.

Definition render_line (kind : line_kind) : json -> outcome string :=
  match kind with
  | MovieLine => movie_line
  | ReleaseLine => release_line
  | MultiMovie | MultiTv | MultiPerson => multi_line
  | CastLine => cast_line
  | CrewLine => crew_line
  end.

(** The items a kind of line is written for: the multi-search branches go
    by ["media_type"]. *)
Definition applies (kind : line_kind) (item : dict) : Prop :=
  match kind with
  | MultiMovie => dict_get "media_type" item = Some (JStr "movie")
  | MultiTv => dict_get "media_type" item = Some (JStr "tv")
  | MultiPerson => dict_get "media_type" item = Some (JStr "person")
  | _ => True
  end.

(** The fields of a line, in order: the label written before the field,
    the key it is read from, and what is written when the key is missing
    ([None]: the key is read unchecked). *)
Definition layout (kind : line_kind) : list (string * string * option string) :=
  match kind with
  | MovieLine | ReleaseLine =>
      [ ("id: ", "id", Some ""); (" title: ", "title", Some "Unknown");
        (" release_date: ", "release_date", Some "N/A");
        (" genre_ids: ", "genre_ids", Some "") ]
  | MultiMovie =>
      [ ("movie: id: ", "id", None); (" title: ", "title", Some "Unknown");
        (" release_date: ", "release_date", Some "N/A");
        (" genre_ids: ", "genre_ids", Some "") ]
  | MultiTv =>
      [ ("tv show: id: ", "id", None); (" name: ", "name", Some "Unknown");
        (" first_air_date: ", "first_air_date", Some "N/A");
        (" genre_ids: ", "genre_ids", Some "") ]
  | MultiPerson =>
      [ ("person: id: ", "id", None); (" name: ", "name", Some "Unknown");
        (" known_for: ", "known_for", Some "");
        (" department: ", "known_for_department", Some "N/A") ]
  | CastLine =>
      [ ("name: ", "name", None); (" character: ", "character", Some "N/A") ]
  | CrewLine =>
      [ ("name: ", "name", None); (" department: ", "department", Some "N/A");
        (" job: ", "job", Some "N/A") ]
  end.

Definition labels (kind : line_kind) : list string :=
  map (fun f => fst (fst f)) (layout kind).

(** Labels and field texts, interleaved. *)
Fixpoint labelled (labels texts : list string) : string :=
  match labels, texts with
  | label :: labels', text :: texts' => label ++ text ++ labelled labels' texts'
  | _, _ => ""
  end.

(** "[line] shows the item [item] with every missing optional field
    written as [placeholder k], under the labels of [kind]". *)
Definition shows_with (placeholder : string -> string) (kind : line_kind)
    (item : dict) (line : string) : Prop :=
  exists texts,
    List.length texts = List.length (layout kind)
    /\ line = labelled (labels kind) texts ++ nl
    /\ forall i label key default,
         nth_error (layout kind) i = Some (label, key, Some default) ->
         dict_get key item = None ->
         nth_error texts i = Some (placeholder default).

(** "Every missing optional field is written as N/A", for one kind of
    line. *)
Definition missing_is_NA (kind : line_kind) : Prop :=
  forall item line,
    applies kind item -> render_line kind (JDict item) = Returned line ->
    shows_with (fun _ => "N/A") kind item line.

(** A cast entry with a name and no character. *)
Definition a_cast_member : dict := [("name", JStr "Keanu Reeves")].



(** The item lines a tool wrote, for the items [shown]:  each item gives
    its line, in order. *)
Definition lines_of (line : json -> outcome string) (shown : list json)
    (lines : list string) : Prop :=
  Forall2 (fun x l => line x = Returned l) shown lines.

(** Six search hits without any key but the title. *)
Definition six_hits : list json :=
  map (fun t => JDict [("title", JStr t)]) ["a"; "b"; "c"; "d"; "e"; "f"].


(** A multi-search hit of a kind the loop has no branch for, and one for
    a person. *)
Definition a_collection : dict :=
  [("media_type", JStr "collection"); ("id", JInt 1)].

Definition a_person : dict :=
  [ ("media_type", JStr "person"); ("id", JInt 6384); ("name", JStr "Keanu Reeves");
    ("known_for", JList [ JDict [("title", JStr "The Matrix")];
                          JDict [("name", JStr "Cyberpunk")] ]) ].

(** Success payloads with an item that lacks a key the loop reads
    unchecked. *)
Definition hit_without_id : json :=
  JDict [("results", JList [JDict [("media_type", JStr "movie"); ("title", JStr "Heat")]])].

Definition genre_without_name : json :=
  JDict [("genres", JList [JDict [("id", JInt 28)]])].

Definition genre_without_id : json :=
  JDict [("genres", JList [JDict [("name", JStr "Action")]])].

(** [x.get("popularity", 0)] and [m.get("title", "Unknown")] on a credit. *)
Definition popularity_of (credit : dict) : json := args_get credit "popularity" (JInt 0).
Definition title_of (credit : dict) : json := args_get credit "title" (JStr "Unknown").

(** The credits have the numeric popularity scores [scores], one each. *)
Definition scored (credits : list dict) (scores : list Z) : Prop :=
  Forall2 (fun c z => num_key (popularity_of c) = Some z) credits scores.

(** Descending order of the scores. *)
Definition descending (l : list (Z * dict)) : Prop :=
  StronglySorted (fun a b => fst a >= fst b) l.

(** Six credits with the popularity scores 3, 9, 1, 7, 5, 8. *)
Definition credit (title : string) (popularity : Z) : dict :=
  [("title", JStr title); ("popularity", JInt popularity)].

Definition six_credits : list dict :=
  [ credit "three" 3; credit "nine" 9; credit "one" 1;
    credit "seven" 7; credit "five" 5; credit "eight" 8 ].

Definition a_person_payload : dict :=
  [ ("id", JInt 6384); ("name", JStr "Keanu Reeves");
    ("movie_credits", JDict [("cast", JList (map JDict six_credits))]) ].

(** The members listed under ["cast"] or ["crew"], none when the key is
    missing, and the text of that section of the credits: nothing when
    the key is missing, its label and the lines otherwise. *)
Definition members (listed : option (list json)) : list json :=
  match listed with Some l => l | None => [] end.




(** The text a well-formed date field and list of genres are shown as. *)
Definition year_text (date : string) : string := str_take 4 date.
Definition genres_text (genre_ids : list json) : string :=
  join ", " (map py_str genre_ids).

(** [k.get('title', k.get('name', 'Unknown'))] gives the [str] [t]. *)
Definition titled (k : dict) (t : string) : Prop :=
  args_get k "title" (args_get k "name" (JStr "Unknown")) = JStr t.

(** Multi-search hits of the three kinds. *)
Definition heat : dict :=
  [ ("media_type", JStr "movie"); ("id", JInt 949); ("title", JStr "Heat");
    ("release_date", JStr "1995-12-15"); ("genre_ids", JList [JInt 28; JInt 80]) ].

Definition breaking_bad : dict :=
  [ ("media_type", JStr "tv"); ("id", JInt 1396); ("name", JStr "Breaking Bad");
    ("first_air_date", JStr "2008-01-20"); ("genre_ids", JList [JInt 18]) ].

Definition known_for_of_a_person : list dict :=
  [ [("title", JStr "The Matrix")]; [("name", JStr "Cyberpunk")] ].

Definition mixed_hits : list json :=
  [ JDict heat; JDict a_collection; JDict breaking_bad; JDict a_person ].

(** The request of a tool that looks something up by identifier: the
    path ends in [suffix], and [params] are the parameters of the
    wrapper. *)
Definition lookup_request (api_key : json) (path suffix : string) (id : json)
    (params : dict) : request :=
  {| req_url := TMDB_API_BASE_URL ++ path ++ py_str id ++ suffix;
     req_params := request_params api_key (Some params) |}.

(** The tools built on [format_listing]. *)
Definition lists_items (r : rendering) : bool :=
  match r with
  | OfDetails _ | OfPerson _ | OfCredits _ => false
  | _ => true
  end.

(** A search hit with a date and genres. *)
Definition dated_hit : dict :=
  [ ("id", JInt 949); ("title", JStr "Heat");
    ("release_date", JStr "1995-12-15"); ("genre_ids", JList [JInt 28; JInt 80]) ].

(** The entry [g] has the [str] name [n]; the entries listed under
    [field] of [d] have the names [names] (no names when the key is
    missing). *)
Definition named (g : dict) (n : string) : Prop := dict_get "name" g = Some (JStr n).

Definition names_under (d : dict) (field : string) (names : list string) : Prop :=
  (dict_get field d = None /\ names = [])
  \/ (exists gs, dict_get field d = Some (JList (map JDict gs)) /\ Forall2 named gs names).

(** A field of a details block as [result.get(k, default)] shows it. *)
Definition shown_or (d : dict) (k : string) (default : json) : string :=
  py_str (args_get d k default).

(** The person has no credit to rank: no ["movie_credits"], or no
    ["cast"] in it, or an empty one. *)
Definition no_credits (d : dict) : Prop :=
  dict_get "movie_credits" d = None
  \/ exists mc, dict_get "movie_credits" d = Some (JDict mc)
                /\ (dict_get "cast" mc = None \/ dict_get "cast" mc = Some (JList [])).

Definition the_matrix : dict :=
  [ ("id", JInt 603); ("title", JStr "The Matrix"); ("runtime", JInt 136);
    ("genres", JList [ JDict [("id", JInt 28); ("name", JStr "Action")];
                       JDict [("id", JInt 878); ("name", JStr "Science Fiction")] ]) ].

(** * Properties *)

(** ** Runtime helpers on concrete values *)

Example py_str_int : py_str (JInt (-42)) = "-42".
Proof. reflexivity. Qed.

Example py_str_list :
  py_str (JList [JInt 28; JStr "it's"; JNull; JDict [("a", JBool true)]])
  = "[28, " ++ String dquote ("it's" ++ String dquote ", None, {'a': True}]").
Proof. vm_compute. reflexivity. Qed.

(** ** The catalog client *)

Section Client.

Variable api_key : json.

(** Every wrapper ends in one call of [tmdb_request]. *)
Lemma invoke_tmdb_request (c : call) :
  exists endpoint params,
    invoke api_key c = tmdb_request api_key endpoint (Some params)
    /\ params <> [].
Proof.
  destruct c; cbn [invoke]; eexists; eexists; (split; [reflexivity | discriminate]).
Qed.

(** One request goes out per call, whatever the transport answers, and
    the result is what the [try] block makes of the answer. *)
Lemma invoke_log (c : call) :
  exists req, forall net log,
    invoke api_key c net log = (received (net req), (log ++ [req])%list).
Proof.
  destruct (invoke_tmdb_request c) as (endpoint & params & -> & _).
  eexists; intros net log; reflexivity.
Qed.

Lemma issued_one (c : call) : exists req, issued api_key c = [req].
Proof.
  destruct (invoke_log c) as [req H]. exists req.
  unfold issued. rewrite H. reflexivity.
Qed.

End Client.

(** C1.  When the exchange fails with a [RequestException] (raised by
    [requests.get], by [raise_for_status] or by [response.json]),
    [tmdb_request] and each of its twelve wrappers return the dict
    [{"error": text}] holding the text of the exception; nothing is
    raised to the caller. *)
Theorem transport_failure_is_returned :
  forall (api_key : json) (net : transport) (log : list request) (text : string),
    transport_fails net text ->
    (forall endpoint params,
        fst (tmdb_request api_key endpoint params net log)
        = Returned (JDict [("error", JStr text)]))
    /\ (forall c : call,
        fst (invoke api_key c net log) = Returned (JDict [("error", JStr text)])).
Proof.
  intros api_key net log text Hfail.
  assert (Hreq : forall endpoint params,
             fst (tmdb_request api_key endpoint params net log)
             = Returned (JDict [("error", JStr text)])).
  { intros endpoint params. unfold tmdb_request. cbn [fst].
    destruct (Hfail {| req_url := TMDB_API_BASE_URL ++ endpoint;
                       req_params := request_params api_key params |}) as [st ->].
    reflexivity. }
  split; [exact Hreq |].
  intros c. destruct (invoke_tmdb_request api_key c) as (endpoint & params & -> & _).
  apply Hreq.
Qed.

Lemma transport_failure_is_returned_witness :
  transport_fails refused "401 Client Error: Unauthorized"
  /\ fst (invoke (JStr "k") (GetMovieDetails (JInt 603) None) refused [])
     = Returned (JDict [("error", JStr "401 Client Error: Unauthorized")]).
Proof.
  assert (H : transport_fails refused "401 Client Error: Unauthorized").
  { intros req. exists AtStatus. reflexivity. }
  split; [exact H |].
  apply (transport_failure_is_returned (JStr "k") refused [] _ H).
Defined.

(** An exception of another class is not caught by the handler. *)
Example other_exception_propagates :
  fst (tmdb_request (JStr "k") "/genre/movie/list" None
         (fun _ => Failed AtJson (OtherException "Expecting value")) [])
  = Raised (OtherException "Expecting value").
Proof. reflexivity. Qed.

(** ** Dictionaries and the [None] filter *)

Section Dicts.

Implicit Types (d : dict) (k : string) (v : json).

Lemma dict_keys_In d k v : In (k, v) d -> In k (dict_keys d).
Proof. intros H. apply (in_map fst) in H. exact H. Qed.

Lemma dict_get_In d k v :
  NoDup (dict_keys d) -> In (k, v) d -> dict_get k d = Some v.
Proof.
  induction d as [| [k' v'] d IH]; intros Hnd Hin; [destruct Hin |].
  cbn in Hnd. inversion Hnd as [| ? ? Hout Hnd']; subst.
  cbn [dict_get]. destruct Hin as [Heq | Hin].
  - inversion Heq; subst. rewrite String.eqb_refl. reflexivity.
  - destruct (String.eqb_spec k k') as [-> | _].
    + exfalso. apply Hout. eapply dict_keys_In; eassumption.
    + apply IH; assumption.
Qed.

Lemma dict_set_fresh d k v :
  ~ In k (dict_keys d) -> dict_set k v d = (d ++ [(k, v)])%list.
Proof.
  induction d as [| [k' v'] d IH]; intros Hout; [reflexivity |].
  cbn [dict_set]. destruct (String.eqb_spec k k') as [-> | _].
  - exfalso. apply Hout. left. reflexivity.
  - cbn. rewrite IH; [reflexivity |]. intros Hin. apply Hout. right. exact Hin.
Qed.

Lemma not_none_true k v : not_none (k, v) = true <-> v <> JNull.
Proof.
  unfold not_none. cbn. destruct v; cbn; split; intros H; congruence.
Qed.

Lemma filter_keys_incl (f : string * json -> bool) d k :
  In k (dict_keys (filter f d)) -> In k (dict_keys d).
Proof.
  unfold dict_keys. rewrite !in_map_iff. intros [kv [Hk Hin]].
  apply filter_In in Hin. exists kv. tauto.
Qed.

Lemma filter_keys_NoDup (f : string * json -> bool) d :
  NoDup (dict_keys d) -> NoDup (dict_keys (filter f d)).
Proof.
  induction d as [| [k v] d IH]; intros Hnd; [constructor |].
  cbn in Hnd. inversion Hnd as [| ? ? Hout Hnd']; subst.
  cbn [filter]. destruct (f (k, v)).
  - cbn. constructor; [| apply IH; exact Hnd'].
    intros Hin. apply Hout. eapply filter_keys_incl. exact Hin.
  - apply IH. exact Hnd'.
Qed.

(** What [tmdb_request] sends for a non-empty [params] with distinct
    keys, none of them ["api_key"]: a [None] entry is gone, every other
    entry is there once, with its value. *)
Lemma request_params_spec (api_key : json) d :
  d <> [] -> NoDup (dict_keys d) -> ~ In "api_key" (dict_keys d) ->
  (forall k, In (k, JNull) d ->
             ~ In k (dict_keys (request_params api_key (Some d))))
  /\ (forall k v, In (k, v) d -> v <> JNull ->
        count_occ string_dec (dict_keys (request_params api_key (Some d))) k = 1%nat
        /\ dict_get k (request_params api_key (Some d)) = Some v).
Proof.
  intros Hne Hnd Hkey.
  assert (Hout : request_params api_key (Some d)
                 = filter not_none (d ++ [("api_key", api_key)])%list).
  { unfold request_params. destruct d as [| kv d']; [congruence |].
    cbn [py_truthy]. rewrite dict_set_fresh by exact Hkey. reflexivity. }
  assert (Hnd' : NoDup (dict_keys (d ++ [("api_key", api_key)])%list)).
  { unfold dict_keys. rewrite map_app. apply NoDup_app.
    - exact Hnd.
    - repeat constructor. intros [].
    - intros k Hk [<- | []]. apply Hkey. exact Hk. }
  rewrite Hout. split.
  - intros k Hin Hsent.
    unfold dict_keys in Hsent. apply in_map_iff in Hsent.
    destruct Hsent as [[k' v'] [Hk Hf]]. cbn in Hk. subst k'.
    apply filter_In in Hf. destruct Hf as [Hin' Hnn].
    assert (Hv : dict_get k (d ++ [("api_key", api_key)])%list = Some v').
    { apply dict_get_In; assumption. }
    assert (Hn : dict_get k (d ++ [("api_key", api_key)])%list = Some JNull).
    { apply dict_get_In; [assumption |]. apply in_or_app. left. exact Hin. }
    rewrite Hv in Hn. inversion Hn; subst. discriminate Hnn.
  - intros k v Hin Hv.
    assert (Hf : In (k, v) (filter not_none (d ++ [("api_key", api_key)])%list)).
    { apply filter_In. split; [apply in_or_app; left; exact Hin |].
      apply not_none_true. exact Hv. }
    assert (Hndf : NoDup (dict_keys (filter not_none
                                       (d ++ [("api_key", api_key)])%list))).
    { apply filter_keys_NoDup. exact Hnd'. }
    split.
    + apply NoDup_count_occ'; [exact Hndf |]. eapply dict_keys_In. exact Hf.
    + apply dict_get_In; assumption.
Qed.

End Dicts.

(** ** The outgoing parameter set *)

Lemma py_or_not_none (v : json) : py_or v (JStr "movie_credits") <> JNull.
Proof.
  unfold py_or. destruct (py_truthy v) eqn:Hv; [| discriminate].
  intros ->. discriminate Hv.
Qed.

(** Exposes the [params] literal of the wrapper behind [sent]. *)
Ltac expose_sent :=
  unfold sent, issued, invoke, search_movie, get_movie_details, discover_movies,
    get_trending_movies, get_movie_recommendations, get_movie_credits,
    get_person_details, get_genre_list, get_upcoming_movies,
    get_now_playing_movies, get_similar_movies, multi_search, tmdb_request;
  cbn [snd app req_params query_arguments].

Ltac distinct_keys :=
  cbn [dict_keys map fst]; repeat constructor; cbn [In];
  intuition discriminate.

Ltac params_spec api_key Hnull Hval :=
  match goal with
  | |- context [request_params api_key (Some ?d)] =>
      destruct (request_params_spec api_key d) as [Hnull Hval];
      [ discriminate | distinct_keys | cbn [dict_keys map fst In]; intuition discriminate | ]
  end.

Lemma request_params_not_none (api_key : json) (params : option dict)
      (k : string) (v : json) :
  In (k, v) (request_params api_key params) -> v <> JNull.
Proof.
  unfold request_params. intros H. apply filter_In in H.
  destruct H as [_ H]. apply not_none_true in H. exact H.
Qed.

(** C2.  For every wrapper and every assignment of its arguments: an
    argument left unset ([None]) is absent from the parameter set sent -
    its name is not among the keys; every argument that is set or has a
    default is there exactly once, under its wire name and with its
    value; and no parameter is sent with the value [None]. *)
Theorem unset_arguments_are_omitted :
  forall (api_key : json) (c : call),
    unset_means_absent api_key c
    /\ set_means_sent_once api_key c
    /\ (forall k v, In (k, v) (sent api_key c) -> v <> JNull).
Proof.
  intros api_key c. unfold unset_means_absent, set_means_sent_once.
  destruct c; expose_sent; params_spec api_key Hnull Hval;
    (split; [exact Hnull | split; [exact Hval |]]);
    intros k v Hin; exact (request_params_not_none _ _ _ _ Hin).
Qed.

Lemma unset_arguments_are_omitted_witness :
  In ("region", JNull) (query_arguments (GetUpcomingMovies None None))
  /\ ~ In "region" (dict_keys (sent (JStr "k") (GetUpcomingMovies None None)))
  /\ dict_get "language" (sent (JStr "k") (GetUpcomingMovies None None))
     = Some (JStr "en-US").
Proof.
  assert (Hin : In ("region", JNull) (query_arguments (GetUpcomingMovies None None)))
    by (right; left; reflexivity).
  split; [exact Hin |]. split.
  - exact (proj1 (unset_arguments_are_omitted (JStr "k") (GetUpcomingMovies None None))
             "region" Hin).
  - refine (proj2 (proj1 (proj2 (unset_arguments_are_omitted (JStr "k")
                                   (GetUpcomingMovies None None)))
                     "language" (JStr "en-US") _ _)).
    + left. reflexivity.
    + discriminate.
Defined.

(** The person lookup always asks for the movie credits, whatever the
    caller leaves unset. *)
Example person_lookup_appends_credits :
  sent (JStr "k") (GetPersonDetails (JInt 287) None None)
  = [ ("language", JStr "en-US"); ("append_to_response", JStr "movie_credits");
      ("api_key", JStr "k") ].
Proof. reflexivity. Qed.

Example discover_defaults_sent :
  sent (JStr "k")
    (DiscoverMovies None None None None None None None None None
       (Some (JStr "28,12")) None None None None None)
  = [ ("language", JStr "en-US"); ("sort_by", JStr "popularity.desc");
      ("include_adult", JBool false); ("include_video", JBool false);
      ("page", JInt 1); ("with_genres", JStr "28,12"); ("api_key", JStr "k") ].
Proof. reflexivity. Qed.

(** ** The identifier guard of the five tools *)

Section IdGuard.

Variables (api_key : json) (args : dict) (net : transport) (log : list request).

(** [if not movie_id]: a falsy identifier ends the tool before the
    client is called, and the log is the one the tool started with. *)
Lemma falsy_movie_id :
  py_truthy (args_get args "movie_id" JNull) = false ->
  forall tool, In tool movie_id_tools ->
    tool api_key args net log = (Returned "Error: Movie ID is required.", log).
Proof.
  intros Hid tool Hin. cbn in Hin.
  destruct Hin as [<- | [<- | [<- | [<- | []]]]];
    unfold get_movie_details_tool, get_movie_recommendations_tool,
      get_similar_movies_tool, get_movie_credits_tool;
    rewrite Hid; reflexivity.
Qed.

Lemma falsy_person_id :
  py_truthy (args_get args "person_id" JNull) = false ->
  get_person_details_tool api_key args net log
  = (Returned "Error: Person ID is required.", log).
Proof.
  intros Hid. unfold get_person_details_tool. rewrite Hid. reflexivity.
Qed.

End IdGuard.

(** C3.  Called without its identifier, each of the five tools returns
    its fixed message ("Error: Movie ID is required." for details,
    recommendations, similar and credits, "Error: Person ID is required."
    for the person lookup) and leaves the request log as it found it: no
    request is issued. *)
Theorem missing_id_is_refused :
  forall (api_key : json) (args : dict) (net : transport) (log : list request),
    (dict_get "movie_id" args = None ->
     forall tool, In tool movie_id_tools ->
       tool api_key args net log = (Returned "Error: Movie ID is required.", log))
    /\ (dict_get "person_id" args = None ->
        get_person_details_tool api_key args net log
        = (Returned "Error: Person ID is required.", log)).
Proof.
  intros api_key args net log. split; intros Hid.
  - apply falsy_movie_id. unfold args_get. rewrite Hid. reflexivity.
  - apply falsy_person_id. unfold args_get. rewrite Hid. reflexivity.
Qed.

Lemma missing_id_is_refused_witness :
  dict_get "movie_id" [("language", JStr "fr-FR")] = None
  /\ In get_movie_credits_tool movie_id_tools
  /\ get_movie_credits_tool (JStr "k") [("language", JStr "fr-FR")]
       (fun _ => Replied (JDict [])) []
     = (Returned "Error: Movie ID is required.", []).
Proof.
  assert (Hid : dict_get "movie_id" [("language", JStr "fr-FR")] = None)
    by reflexivity.
  assert (Hin : In get_movie_credits_tool movie_id_tools)
    by (right; right; right; left; reflexivity).
  split; [exact Hid |]. split; [exact Hin |].
  exact (proj1 (missing_id_is_refused (JStr "k") [("language", JStr "fr-FR")]
                  (fun _ => Replied (JDict [])) [])
           Hid get_movie_credits_tool Hin).
Defined.

(** C9.  An identifier that is present and equal to 0 is refused like a
    missing one: same message, no request. *)
Theorem zero_id_is_refused :
  forall (api_key : json) (args : dict) (net : transport) (log : list request),
    (dict_get "movie_id" args = Some (JInt 0) ->
     forall tool, In tool movie_id_tools ->
       tool api_key args net log = (Returned "Error: Movie ID is required.", log))
    /\ (dict_get "person_id" args = Some (JInt 0) ->
        get_person_details_tool api_key args net log
        = (Returned "Error: Person ID is required.", log)).
Proof.
  intros api_key args net log. split; intros Hid.
  - apply falsy_movie_id. unfold args_get. rewrite Hid. reflexivity.
  - apply falsy_person_id. unfold args_get. rewrite Hid. reflexivity.
Qed.

Lemma zero_id_is_refused_witness :
  dict_get "person_id" [("person_id", JInt 0)] = Some (JInt 0)
  /\ get_person_details_tool (JStr "k") [("person_id", JInt 0)]
       (fun _ => Replied (JDict [])) []
     = (Returned "Error: Person ID is required.", []).
Proof.
  assert (Hid : dict_get "person_id" [("person_id", JInt 0)] = Some (JInt 0))
    by reflexivity.
  split; [exact Hid |].
  exact (proj2 (zero_id_is_refused (JStr "k") [("person_id", JInt 0)]
                  (fun _ => Replied (JDict [])) []) Hid).
Defined.

(** With an identifier that is truthy the request does go out. *)
Example nonzero_id_is_looked_up :
  snd (get_person_details_tool (JStr "k") [("person_id", JInt 287)]
         (fun _ => Replied (JDict [])) [])
  = [ {| req_url := "https://api.themoviedb.org/3/person/287";
         req_params := [ ("language", JStr "en-US");
                         ("append_to_response", JStr "movie_credits");
                         ("api_key", JStr "k") ] |} ].
Proof. reflexivity. Qed.

(** ** Failure indicators and empty payloads *)

Section Failures.

Ltac unfold_present :=
  unfold present, format_search_movie, format_movie_details,
    format_movie_recommendations, format_trending_movies,
    format_discover_movies, format_genre_list, format_upcoming_movies,
    format_now_playing_movies, format_similar_movies, format_multi_search,
    format_movie_credits, format_person_details, format_listing, no_details;
  cbn [py_in py_item py_get obind]; unfold dict_has.

Variables (d : dict) (e : json).
Hypothesis Herror : dict_get "error" d = Some e.

(** Ten tools report the failure on one line of their own. *)
Lemma present_failure (r : rendering) (prefix : string) :
  error_prefix r = Some prefix ->
  present r (JDict d) = Returned (prefix ++ py_str e).
Proof.
  intros Hp.
  destruct r; cbn in Hp; try discriminate Hp; injection Hp as <-;
    unfold_present; rewrite Herror; reflexivity.
Qed.

(** The two detail lookups answer a failure with the sentence they have
    for a payload without ["id"]. *)
Lemma present_failure_details (r : rendering) :
  error_prefix r = None ->
  present r (JDict d) = Returned (nothing_found r).
Proof.
  intros Hp.
  destruct r; cbn in Hp; try discriminate Hp;
    unfold_present; rewrite Herror; reflexivity.
Qed.

End Failures.

Lemma present_empty (r : rendering) (d : dict) :
  empty_payload r d -> present r (JDict d) = Returned (nothing_found r).
Proof.
  intros [Herr Hnone].
  destruct r; cbn in Hnone;
    unfold present, format_search_movie, format_movie_details,
      format_movie_recommendations, format_trending_movies,
      format_discover_movies, format_genre_list, format_upcoming_movies,
      format_now_playing_movies, format_similar_movies, format_multi_search,
      format_movie_credits, format_person_details, format_listing, no_details;
    cbn [py_in py_item py_get obind]; unfold dict_has; rewrite Herr;
    cbn [obind];
    try (unfold args_get in Hnone; rewrite Hnone; reflexivity);
    try (rewrite Hnone; reflexivity).
  destruct Hnone as [-> ->]. reflexivity.
Qed.

Lemma error_prefix_single_line (r : rendering) (prefix : string) :
  error_prefix r = Some prefix ->
  exists rest, prefix = String "E" rest /\ str_has (ascii_of_nat 10) prefix = false.
Proof.
  intros Hp. destruct r; cbn in Hp; try discriminate Hp; injection Hp as <-;
    eexists; (split; [reflexivity | vm_compute; reflexivity]).
Qed.

Lemma nothing_found_opens (r : rendering) :
  exists rest, nothing_found r = String "N" rest.
Proof. destruct r; cbn; eexists; reflexivity. Qed.

(** C4, as the code has it.  For a result that carries the key
    ["error"]: the ten list tools return one line, the tool's own
    "Error ..." words (no line feed in them) followed by the message as
    [str] writes it, which is never the sentence they have for an empty
    payload; the two detail lookups return the "No details found ..."
    sentence they also have for a payload without ["id"], and the message
    is not in it. *)
Theorem failure_rendering :
  forall (r : rendering) (d : dict) (e : json),
    dict_get "error" d = Some e ->
    (forall prefix, error_prefix r = Some prefix ->
       present r (JDict d) = Returned (prefix ++ py_str e)
       /\ str_has (ascii_of_nat 10) prefix = false
       /\ forall d', empty_payload r d' ->
            present r (JDict d') = Returned (nothing_found r)
            /\ present r (JDict d') <> present r (JDict d))
    /\ (error_prefix r = None ->
        present r (JDict d) = Returned (nothing_found r)
        /\ forall d', empty_payload r d' ->
             present r (JDict d') = present r (JDict d)).
Proof.
  intros r d e He. split.
  - intros prefix Hp.
    destruct (error_prefix_single_line r prefix Hp) as [rest [Hrest Hline]].
    split; [apply (present_failure d e He r prefix Hp) |].
    split; [exact Hline |].
    intros d' Hempty. split; [apply present_empty; exact Hempty |].
    rewrite (present_empty r d' Hempty), (present_failure d e He r prefix Hp).
    destruct (nothing_found_opens r) as [rest' ->]. rewrite Hrest.
    cbn. intros Heq. discriminate Heq.
  - intros Hp. split; [apply (present_failure_details d e He r Hp) |].
    intros d' Hempty.
    rewrite (present_empty r d' Hempty). symmetry.
    apply (present_failure_details d e He r Hp).
Qed.

Lemma failure_rendering_witness :
  dict_get "error" [("error", JStr "503 Server Error")] = Some (JStr "503 Server Error")
  /\ present OfUpcoming (JDict [("error", JStr "503 Server Error")])
     = Returned "Error getting upcoming movies: 503 Server Error".
Proof.
  assert (He : dict_get "error" [("error", JStr "503 Server Error")]
               = Some (JStr "503 Server Error")) by reflexivity.
  split; [exact He |].
  exact (proj1 (proj1 (failure_rendering OfUpcoming _ _ He) _ eq_refl)).
Defined.

(** C4 as written fails at the movie details tool: the failure message is
    not in the text, and an empty payload gives the same text. *)
Lemma details_failure_is_merged :
  present (OfDetails (JInt 603)) (JDict [("error", JStr "503 Server Error")])
  = Returned "No details found for movie ID 603."
  /\ present (OfDetails (JInt 603)) (JDict [])
     = Returned "No details found for movie ID 603."
  /\ ~ failure_is_told_apart (OfDetails (JInt 603)).
Proof.
  split; [reflexivity |]. split; [reflexivity |].
  intros H.
  destruct (H [("error", JStr "503 Server Error")] "503 Server Error" eq_refl)
    as [s [Hs [Hin _]]].
  injection Hs as <-. vm_compute in Hin. discriminate Hin.
Qed.

(** ** Loops over the items *)

Lemma str_app_assoc (a b c : string) : (a ++ b) ++ c = a ++ (b ++ c).
Proof. induction a as [| x a IH]; cbn; [reflexivity | rewrite IH; reflexivity]. Qed.

Lemma str_app_nil_r (a : string) : a ++ "" = a.
Proof. induction a as [| x a IH]; cbn; [reflexivity | rewrite IH; reflexivity]. Qed.

Section Loops.

Variable line : json -> outcome string.

Lemma map_each_Forall2 {A B} (f : A -> outcome B) (xs : list A) (ys : list B) :
  map_each f xs = Returned ys <-> Forall2 (fun x y => f x = Returned y) xs ys.
Proof.
  revert ys. induction xs as [| x xs IH]; intros ys; cbn.
  - split.
    + intros H. injection H as <-. constructor.
    + intros H. inversion H. reflexivity.
  - split.
    + destruct (f x) as [y |] eqn:Hy; cbn; [| discriminate].
      destruct (map_each f xs) as [ys' |] eqn:Hys; cbn; [| discriminate].
      intros H. injection H as <-. constructor; [exact Hy |].
      apply IH. reflexivity.
    + intros H. inversion H as [| ? y ? ys' Hy Hrest]; subst.
      rewrite Hy. cbn. apply IH in Hrest. rewrite Hrest. reflexivity.
Qed.

(** The loop appends the items' lines to the header, in the order of
    the items. *)
Lemma for_each_lines (items : list json) (lines : list string) (acc : string) :
  Forall2 (fun x l => line x = Returned l) items lines ->
  for_each line items acc = Returned (acc ++ lines_text lines).
Proof.
  intros H. revert acc.
  induction H as [| x l items lines Hx _ IH]; intros acc; cbn.
  - rewrite str_app_nil_r. reflexivity.
  - rewrite Hx. cbn. rewrite IH, str_app_assoc. reflexivity.
Qed.

(** The first item that faults ends the loop with its exception. *)
Lemma for_each_fault (before : list json) (lines : list string) (x : json)
      (after : list json) (acc : string) (e : exn) :
  Forall2 (fun x l => line x = Returned l) before lines ->
  line x = Raised e ->
  for_each line (before ++ x :: after)%list acc = Raised e.
Proof.
  intros H Hx. revert acc.
  induction H as [| y l before lines Hy _ IH]; intros acc; cbn.
  - rewrite Hx. reflexivity.
  - rewrite Hy. cbn. apply IH.
Qed.


(** [format_listing] on a payload without ["error"] whose list is not
    empty. *)
Lemma format_listing_items (error_prefix none_found header field : string)
      (cap : nat) (d : dict) (items : list json) (lines : list string) :
  dict_get "error" d = None ->
  dict_get field d = Some (JList items) ->
  items <> [] ->
  Forall2 (fun x l => line x = Returned l) (firstn cap items) lines ->
  format_listing error_prefix none_found header field (Some cap) line (JDict d)
  = Returned (header ++ lines_text lines).
Proof.
  intros Herr Hfield Hne Hlines.
  unfold format_listing. cbn [py_in py_get obind]. unfold dict_has.
  rewrite Herr, Hfield. cbn [obind].
  destruct items as [| x items]; [congruence |].
  cbn [py_truthy negb py_slice obind py_iter].
  apply for_each_lines. exact Hlines.
Qed.

End Loops.

(** ** The shape of an item line *)

Lemma labelled_cons (l t : string) (ls ts : list string) (tail : string) :
  labelled (l :: ls) (t :: ts) ++ tail = l ++ t ++ (labelled ls ts ++ tail).
Proof. cbn [labelled]. rewrite !str_app_assoc. reflexivity. Qed.

Lemma year_of_missing (item : dict) (k : string) :
  dict_get k item = None -> year_of (JDict item) k = Returned (JStr "N/A").
Proof. intros H. unfold year_of. cbn [py_get obind]. rewrite H. reflexivity. Qed.

(** Splits a chain of [let!] that returned into its steps. *)
Ltac invert_chain H :=
  repeat (cbn [obind py_get] in H;
          match type of H with
          | obind ?m _ = Returned _ =>
              let E := fresh "E" in destruct m eqn:E; [| discriminate H]
          end);
  cbn [obind] in H.

Ltac line_equation :=
  unfold labels; cbn [layout map fst];
  rewrite !labelled_cons; cbn [labelled append]; reflexivity.

(** The field texts of a line, read off the text the loop body returns:
    what stands between the labels. *)
Ltac texts_of line :=
  lazymatch line with
  | nl => constr:(@nil string)
  | EmptyString => constr:(@nil string)
  | String _ ?rest => texts_of rest
  | ?a ++ ?rest => let r := texts_of rest in constr:(a :: r)
  end.

Ltac field_texts :=
  lazymatch goal with
  | |- shows_with _ _ _ ?line => let ts := texts_of line in exists ts
  end.

Ltac nth_field i Hnth :=
  do 4 (try (destruct i as [| i]; cbn [nth_error layout] in Hnth;
             [try discriminate Hnth; try (injection Hnth as <- <- <-) |]));
  try (destruct i; cbn in Hnth; discriminate Hnth).

(** Picks the branch of [multi_line] for a known [media_type]. *)
Ltac pick_branch H Happ :=
  unfold multi_line in H; cbn [py_get obind] in H; rewrite Happ in H;
  repeat match type of H with
         | context [is_str ?a (JStr ?b)] =>
             let v := eval vm_compute in (is_str a (JStr b)) in
             change (is_str a (JStr b)) with v in H
         end;
  cbv iota in H.

Lemma line_shows (kind : line_kind) (item : dict) (line : string) :
  applies kind item ->
  render_line kind (JDict item) = Returned line ->
  shows_with (fun default => default) kind item line.
Proof.
  intros Happ H.
  destruct kind; cbn [render_line applies] in *.
  - (* movie_line *)
    unfold movie_line in H. invert_chain H. injection H as <-.
    field_texts. split; [reflexivity |]. split; [line_equation |].
    intros i label key default Hnth Hnone. nth_field i Hnth; cbn [nth_error]; f_equal.
    + rewrite Hnone. reflexivity.
    + rewrite Hnone. reflexivity.
    + rewrite (year_of_missing _ _ Hnone) in E. injection E as <-. reflexivity.
    + rewrite Hnone in E0. cbn in E0. injection E0 as <-. reflexivity.
  - (* release_line *)
    unfold release_line in H. invert_chain H. injection H as <-.
    field_texts. split; [reflexivity |]. split; [line_equation |].
    intros i label key default Hnth Hnone. nth_field i Hnth; cbn [nth_error]; f_equal.
    + rewrite Hnone. reflexivity.
    + rewrite Hnone. reflexivity.
    + rewrite Hnone. reflexivity.
    + rewrite Hnone in E. cbn in E. injection E as <-. reflexivity.
  - (* multi_line, movie *)
    pick_branch H Happ. invert_chain H. injection H as <-.
    field_texts. split; [reflexivity |]. split; [line_equation |].
    intros i label key default Hnth Hnone. nth_field i Hnth; cbn [nth_error]; f_equal.
    + rewrite Hnone. reflexivity.
    + rewrite (year_of_missing _ _ Hnone) in E. injection E as <-. reflexivity.
    + rewrite Hnone in E1. cbn in E1. injection E1 as <-. reflexivity.
  - (* multi_line, tv *)
    pick_branch H Happ. invert_chain H. injection H as <-.
    field_texts. split; [reflexivity |]. split; [line_equation |].
    intros i label key default Hnth Hnone. nth_field i Hnth; cbn [nth_error]; f_equal.
    + rewrite Hnone. reflexivity.
    + rewrite (year_of_missing _ _ Hnone) in E. injection E as <-. reflexivity.
    + rewrite Hnone in E1. cbn in E1. injection E1 as <-. reflexivity.
  - (* multi_line, person *)
    pick_branch H Happ. invert_chain H. injection H as <-.
    field_texts. split; [reflexivity |]. split; [line_equation |].
    intros i label key default Hnth Hnone. nth_field i Hnth; cbn [nth_error]; f_equal.
    + rewrite Hnone. reflexivity.
    + rewrite Hnone in E. cbn in E. injection E as <-.
      cbn in E0. injection E0 as <-. cbn in E1. injection E1 as <-. reflexivity.
    + rewrite Hnone. reflexivity.
  - (* cast_line *)
    unfold cast_line in H. cbn [py_item] in H. invert_chain H. injection H as <-.
    field_texts. split; [reflexivity |]. split; [line_equation |].
    intros i label key default Hnth Hnone. nth_field i Hnth; cbn [nth_error]; f_equal.
    rewrite Hnone. reflexivity.
  - (* crew_line *)
    unfold crew_line in H. cbn [py_item] in H. invert_chain H. injection H as <-.
    field_texts. split; [reflexivity |]. split; [line_equation |].
    intros i label key default Hnth Hnone. nth_field i Hnth; cbn [nth_error]; f_equal.
    + rewrite Hnone. reflexivity.
    + rewrite Hnone. reflexivity.
Qed.


(** C7, as the code has it.  An item line always carries the labels of
    its kind, in order, whichever keys the item lacks: a missing optional
    field is written as the placeholder of that field, which is "N/A" for
    dates, character, department and job, "Unknown" for title and name,
    and the empty text for id, genre_ids and known_for.  An item with no
    key at all is shown by the search and release loops with all four
    placeholders. *)
Theorem missing_fields_keep_their_place :
  (forall (kind : line_kind) (item : dict) (line : string),
      applies kind item ->
      render_line kind (JDict item) = Returned line ->
      shows_with (fun default => default) kind item line)
  /\ movie_line (JDict [])
     = Returned (labelled (labels MovieLine) [""; "Unknown"; "N/A"; ""] ++ nl)
  /\ release_line (JDict [])
     = Returned (labelled (labels ReleaseLine) [""; "Unknown"; "N/A"; ""] ++ nl).
Proof.
  split; [exact line_shows |]. split; reflexivity.
Qed.

Lemma missing_fields_keep_their_place_witness :
  applies CastLine a_cast_member
  /\ render_line CastLine (JDict a_cast_member)
     = Returned ("name: Keanu Reeves character: N/A" ++ nl)
  /\ shows_with (fun default => default) CastLine a_cast_member
       ("name: Keanu Reeves character: N/A" ++ nl).
Proof.
  assert (Ha : applies CastLine a_cast_member) by exact I.
  assert (Hr : render_line CastLine (JDict a_cast_member)
               = Returned ("name: Keanu Reeves character: N/A" ++ nl))
    by reflexivity.
  split; [exact Ha |]. split; [exact Hr |].
  exact (proj1 missing_fields_keep_their_place CastLine a_cast_member _ Ha Hr).
Defined.

(** C7 as written fails on the search line of an item without keys: the
    title is written as "Unknown" and the id as nothing, not as "N/A". *)
Lemma missing_title_is_unknown :
  movie_line (JDict [])
  = Returned ("id:  title: Unknown release_date: N/A genre_ids: " ++ nl)
  /\ ~ missing_is_NA MovieLine.
Proof.
  split; [reflexivity |].
  intros H.
  destruct (H [] _ I eq_refl) as (texts & Hlen & Hline & Hna).
  pose proof (Hna 0%nat _ _ _ eq_refl eq_refl) as H0.
  destruct texts as [| t0 texts]; [discriminate H0 |].
  injection H0 as ->.
  cbn in Hline. discriminate Hline.
Qed.

(** ** The cap on the items shown *)










Lemma present_listing (r : rendering) (cap : nat) (line : json -> outcome string)
      (header : string) (d : dict) (items : list json) (lines : list string) :
  listing_of r = Some (cap, line, header) ->
  dict_get "error" d = None ->
  dict_get "results" d = Some (JList items) ->
  items <> [] ->
  lines_of line (firstn cap items) lines ->
  present r (JDict d) = Returned (header ++ lines_text lines).
Proof.
  intros Hr Herr Hres Hne Hlines.
  destruct r; cbn in Hr; try discriminate Hr; injection Hr as <- <- <-;
    unfold present, format_search_movie, format_movie_recommendations,
      format_trending_movies, format_discover_movies, format_upcoming_movies,
      format_now_playing_movies, format_similar_movies, format_multi_search;
    apply format_listing_items with (items := items); assumption.
Qed.






(** ** Multi-search: one branch per [media_type] *)

Lemma py_join_strs (sep : string) (titles : list string) :
  py_join sep (map JStr titles) = Returned (join sep titles).
Proof.
  unfold py_join.
  assert (H : map_each as_str (map JStr titles) = Returned titles).
  { induction titles as [| t titles IH]; cbn; [reflexivity |].
    rewrite IH. reflexivity. }
  rewrite H. reflexivity.
Qed.

Lemma unrecognised_no_line (item : dict) :
  recognised (JDict item) = false -> multi_line (JDict item) = Returned "".
Proof.
  unfold recognised, multi_line, args_get. cbn [py_get obind].
  destruct (dict_get "media_type" item) as [m |].
  - destruct (is_str "movie" m); [discriminate |].
    destruct (is_str "tv" m); [discriminate |].
    destruct (is_str "person" m); [discriminate |]. reflexivity.
  - reflexivity.
Qed.

Section MultiSearch.

Variables (item : dict) (id : json).
Hypothesis Hid : dict_get "id" item = Some id.

Lemma multi_movie :
  dict_get "media_type" item = Some (JStr "movie") ->
  multi_line (JDict item)
  = (let! year := year_of (JDict item) "release_date" in
     let! genres := py_join_str ", " (args_get item "genre_ids" (JList [])) in
     Returned ("movie: id: " ++ py_str id
               ++ " title: " ++ py_str (args_get item "title" (JStr "Unknown"))
               ++ " release_date: " ++ py_str year
               ++ " genre_ids: " ++ genres ++ nl)).
Proof.
  intros Hm. unfold multi_line, args_get. cbn [py_get py_item obind].
  rewrite Hm, Hid. reflexivity.
Qed.

Lemma multi_tv :
  dict_get "media_type" item = Some (JStr "tv") ->
  multi_line (JDict item)
  = (let! year := year_of (JDict item) "first_air_date" in
     let! genres := py_join_str ", " (args_get item "genre_ids" (JList [])) in
     Returned ("tv show: id: " ++ py_str id
               ++ " name: " ++ py_str (args_get item "name" (JStr "Unknown"))
               ++ " first_air_date: " ++ py_str year
               ++ " genre_ids: " ++ genres ++ nl)).
Proof.
  intros Hm. unfold multi_line, args_get. cbn [py_get py_item obind].
  rewrite Hm, Hid. reflexivity.
Qed.

Lemma multi_person (credits : list json) (titles : list string) :
  dict_get "media_type" item = Some (JStr "person") ->
  dict_get "known_for" item = Some (JList credits) ->
  map_each known_for_title credits = Returned (map JStr titles) ->
  multi_line (JDict item)
  = Returned ("person: id: " ++ py_str id
              ++ " name: " ++ py_str (args_get item "name" (JStr "Unknown"))
              ++ " known_for: " ++ join ", " titles
              ++ " department: "
              ++ py_str (args_get item "known_for_department" (JStr "N/A")) ++ nl).
Proof.
  intros Hm Hk Ht. unfold multi_line, args_get. cbn [py_get py_item obind].
  rewrite Hm, Hk, Hid. cbn [is_str String.eqb Ascii.eqb Bool.eqb py_iter obind].
  rewrite Ht. cbn [obind]. rewrite py_join_strs. reflexivity.
Qed.

(** The movie branch writes the fields of the search line, behind the
    word "movie: ". *)
Lemma multi_movie_as_movie_line :
  dict_get "media_type" item = Some (JStr "movie") ->
  multi_line (JDict item)
  = (let! line := movie_line (JDict item) in Returned ("movie: " ++ line)).
Proof.
  intros Hm. rewrite (multi_movie Hm).
  unfold movie_line, args_get. cbn [py_get obind]. rewrite Hid.
  destruct (year_of (JDict item) "release_date"); [| reflexivity]. cbn [obind].
  destruct (py_join_str ", "
              (match dict_get "genre_ids" item with
               | Some x => x | None => JList [] end)); reflexivity.
Qed.

End MultiSearch.

Lemma for_each_skip (line : json -> outcome string) (x : json)
      (before after : list json) (acc : string) :
  line x = Returned "" ->
  for_each line (before ++ x :: after)%list acc
  = for_each line (before ++ after)%list acc.
Proof.
  intros Hx. revert acc.
  induction before as [| y before IH]; intros acc; cbn.
  - rewrite Hx. cbn. rewrite str_app_nil_r. reflexivity.
  - destruct (line y); cbn; [apply IH | reflexivity].
Qed.

Lemma year_of_date (item : dict) (k date : string) :
  dict_get k item = Some (JStr date) -> date <> "" ->
  year_of (JDict item) k = Returned (JStr (year_text date)).
Proof.
  intros Hk Hne. unfold year_of. cbn [py_get obind]. rewrite Hk.
  cbn [py_truthy]. destruct (String.eqb_spec date "") as [-> | _]; [congruence |].
  reflexivity.
Qed.

Lemma known_for_titled (ks : list dict) (titles : list string) :
  Forall2 titled ks titles ->
  map_each known_for_title (map JDict ks) = Returned (map JStr titles).
Proof.
  induction 1 as [| k t ks titles Hk _ IH]; cbn; [reflexivity |].
  unfold titled, args_get in Hk. rewrite Hk. rewrite IH. reflexivity.
Qed.

Lemma lines_text_app (a b : list string) :
  lines_text (a ++ b)%list = lines_text a ++ lines_text b.
Proof.
  unfold lines_text. induction a as [| x a IH]; cbn; [reflexivity |].
  rewrite IH, str_app_assoc. reflexivity.
Qed.

(** The text of multi-search for a list within the cap that holds an
    item without a branch: the header, the lines of the items before it
    and the lines of the items after it. *)
Lemma present_multi_skips (query : json) (d item : dict) (before after : list json)
      (lines_before lines_after : list string) :
  dict_get "error" d = None ->
  dict_get "results" d = Some (JList (before ++ JDict item :: after)%list) ->
  (List.length (before ++ JDict item :: after)%list <= 10)%nat ->
  recognised (JDict item) = false ->
  lines_of multi_line before lines_before ->
  lines_of multi_line after lines_after ->
  present (OfMultiSearch query) (JDict d)
  = Returned (("Multi-search results:" ++ nl)
              ++ lines_text lines_before ++ lines_text lines_after).
Proof.
  intros Herr Hres Hlen Hun Hb Ha.
  rewrite (present_listing (OfMultiSearch query) 10 multi_line
             ("Multi-search results:" ++ nl) d
             (before ++ JDict item :: after)%list
             (lines_before ++ "" :: lines_after)%list eq_refl Herr Hres).
  - rewrite lines_text_app. reflexivity.
  - destruct before; discriminate.
  - rewrite firstn_all2 by exact Hlen.
    apply Forall2_app; [exact Hb |].
    constructor; [apply unrecognised_no_line; exact Hun | exact Ha].
Qed.

(** C8.  The multi-search loop goes by ["media_type"].  For an item
    with an id: "movie" gives the movie fields (id, title, the year of
    the release date, the genre ids joined by ", "; the fields of the
    search line, behind "movie: "), "tv" the show fields (id, name, the
    year of the first air date, genre ids), "person" the person fields
    (id, name, the titles of ["known_for"] joined by ", ", department).
    An item with any other value, or none, adds nothing: the text of the
    tool is the header, the lines of the items before it and the lines of
    the items after it. *)
Theorem multi_search_dispatch :
  forall item : dict,
    (forall id date genre_ids,
        dict_get "id" item = Some id ->
        dict_get "media_type" item = Some (JStr "movie") ->
        dict_get "release_date" item = Some (JStr date) -> date <> "" ->
        dict_get "genre_ids" item = Some (JList genre_ids) ->
        multi_line (JDict item)
        = Returned ("movie: id: " ++ py_str id
                    ++ " title: " ++ py_str (args_get item "title" (JStr "Unknown"))
                    ++ " release_date: " ++ year_text date
                    ++ " genre_ids: " ++ genres_text genre_ids ++ nl))
    /\ (forall id,
           dict_get "id" item = Some id ->
           dict_get "media_type" item = Some (JStr "movie") ->
           multi_line (JDict item)
           = (let! line := movie_line (JDict item) in Returned ("movie: " ++ line)))
    /\ (forall id date genre_ids,
           dict_get "id" item = Some id ->
           dict_get "media_type" item = Some (JStr "tv") ->
           dict_get "first_air_date" item = Some (JStr date) -> date <> "" ->
           dict_get "genre_ids" item = Some (JList genre_ids) ->
           multi_line (JDict item)
           = Returned ("tv show: id: " ++ py_str id
                       ++ " name: " ++ py_str (args_get item "name" (JStr "Unknown"))
                       ++ " first_air_date: " ++ year_text date
                       ++ " genre_ids: " ++ genres_text genre_ids ++ nl))
    /\ (forall id known_for titles,
           dict_get "id" item = Some id ->
           dict_get "media_type" item = Some (JStr "person") ->
           dict_get "known_for" item = Some (JList (map JDict known_for)) ->
           Forall2 titled known_for titles ->
           multi_line (JDict item)
           = Returned ("person: id: " ++ py_str id
                       ++ " name: " ++ py_str (args_get item "name" (JStr "Unknown"))
                       ++ " known_for: " ++ join ", " titles
                       ++ " department: "
                       ++ py_str (args_get item "known_for_department" (JStr "N/A"))
                       ++ nl))
    /\ (recognised (JDict item) = false ->
        multi_line (JDict item) = Returned ""
        /\ forall query d before after lines_before lines_after,
             dict_get "error" d = None ->
             dict_get "results" d = Some (JList (before ++ JDict item :: after)%list) ->
             (List.length (before ++ JDict item :: after)%list <= 10)%nat ->
             lines_of multi_line before lines_before ->
             lines_of multi_line after lines_after ->
             present (OfMultiSearch query) (JDict d)
             = Returned (("Multi-search results:" ++ nl)
                         ++ lines_text lines_before ++ lines_text lines_after)).
Proof.
  intros item. split; [| split; [| split; [| split]]].
  - intros id date genre_ids Hid Hm Hdate Hne Hg.
    rewrite (multi_movie item id Hid Hm).
    rewrite (year_of_date item "release_date" date Hdate Hne).
    unfold args_get at 1. rewrite Hg. reflexivity.
  - intros id Hid Hm. apply (multi_movie_as_movie_line item id); assumption.
  - intros id date genre_ids Hid Hm Hdate Hne Hg.
    rewrite (multi_tv item id Hid Hm).
    rewrite (year_of_date item "first_air_date" date Hdate Hne).
    unfold args_get at 1. rewrite Hg. reflexivity.
  - intros id known_for titles Hid Hm Hk Ht.
    apply (multi_person item id Hid (map JDict known_for) titles Hm Hk).
    apply known_for_titled. exact Ht.
  - intros Hun. split; [apply unrecognised_no_line; exact Hun |].
    intros query d before after lb la Herr Hres Hlen Hb Ha.
    apply (present_multi_skips query d item before after lb la); assumption.
Qed.

Lemma multi_search_dispatch_witness :
  multi_line (JDict heat)
  = Returned ("movie: id: 949 title: Heat release_date: 1995 genre_ids: 28, 80" ++ nl)
  /\ multi_line (JDict breaking_bad)
     = Returned ("tv show: id: 1396 name: Breaking Bad first_air_date: 2008 genre_ids: 18" ++ nl)
  /\ multi_line (JDict a_person)
     = Returned ("person: id: 6384 name: Keanu Reeves known_for: The Matrix, Cyberpunk department: N/A" ++ nl)
  /\ recognised (JDict a_collection) = false
  /\ present (OfMultiSearch (JStr "x")) (JDict [("results", JList mixed_hits)])
     = Returned (("Multi-search results:" ++ nl)
                 ++ ("movie: id: 949 title: Heat release_date: 1995 genre_ids: 28, 80" ++ nl)
                 ++ ("tv show: id: 1396 name: Breaking Bad first_air_date: 2008 genre_ids: 18" ++ nl)
                 ++ ("person: id: 6384 name: Keanu Reeves known_for: The Matrix, Cyberpunk department: N/A" ++ nl)).
Proof.
  assert (Hne1 : "1995-12-15" <> "") by discriminate.
  assert (Hne2 : "2008-01-20" <> "") by discriminate.
  assert (Hun : recognised (JDict a_collection) = false) by reflexivity.
  assert (Ht : Forall2 titled known_for_of_a_person ["The Matrix"; "Cyberpunk"])
    by (repeat constructor).
  pose proof (proj1 (multi_search_dispatch heat) (JInt 949) "1995-12-15"
                [JInt 28; JInt 80] eq_refl eq_refl eq_refl Hne1 eq_refl) as Hmovie.
  pose proof (proj1 (proj2 (proj2 (multi_search_dispatch breaking_bad)))
                (JInt 1396) "2008-01-20" [JInt 18]
                eq_refl eq_refl eq_refl Hne2 eq_refl) as Htv.
  pose proof (proj1 (proj2 (proj2 (proj2 (multi_search_dispatch a_person))))
                (JInt 6384) known_for_of_a_person ["The Matrix"; "Cyberpunk"]
                eq_refl eq_refl eq_refl Ht) as Hperson.
  split; [exact Hmovie |]. split; [exact Htv |]. split; [exact Hperson |].
  split; [exact Hun |].
  refine (proj2 ((proj2 (proj2 (proj2 (proj2 (multi_search_dispatch a_collection))))) Hun)
            (JStr "x") [("results", JList mixed_hits)]
            [JDict heat] [JDict breaking_bad; JDict a_person]
            ["movie: id: 949 title: Heat release_date: 1995 genre_ids: 28, 80" ++ nl]
            [ "tv show: id: 1396 name: Breaking Bad first_air_date: 2008 genre_ids: 18" ++ nl;
              "person: id: 6384 name: Keanu Reeves known_for: The Matrix, Cyberpunk department: N/A" ++ nl ]
            eq_refl eq_refl _ _ _).
  - cbn. lia.
  - constructor; [exact Hmovie | constructor].
  - constructor; [exact Htv |]. constructor; [exact Hperson | constructor].
Defined.

(** ** Keys read unchecked *)

Lemma multi_line_needs_id (item : dict) :
  recognised (JDict item) = true ->
  dict_get "id" item = None ->
  exists e, multi_line (JDict item) = Raised e.
Proof.
  intros Hrec Hid. unfold recognised, args_get in Hrec.
  unfold multi_line. cbn [py_get py_item obind]. rewrite Hid.
  destruct (dict_get "media_type" item) as [m |]; [| discriminate Hrec].
  destruct (is_str "movie" m).
  { destruct (year_of (JDict item) "release_date"); cbn [obind]; eauto. }
  destruct (is_str "tv" m).
  { destruct (year_of (JDict item) "first_air_date"); cbn [obind]; eauto. }
  destruct (is_str "person" m); [| discriminate Hrec].
  destruct (py_iter _); cbn [obind]; eauto.
  destruct (map_each known_for_title _); cbn [obind]; eauto.
  destruct (py_join _ _); cbn [obind]; eauto.
Qed.

Lemma genre_line_needs_keys (genre : dict) :
  (dict_get "name" genre = None -> genre_line (JDict genre) = Raised (KeyError "name"))
  /\ (forall name, dict_get "name" genre = Some name -> dict_get "id" genre = None ->
        genre_line (JDict genre) = Raised (KeyError "id")).
Proof.
  unfold genre_line. cbn [py_item obind]. split.
  - intros ->. reflexivity.
  - intros name -> ->. reflexivity.
Qed.

(** C10.  Presentation does not return for every success payload.  A
    multi-search item whose [media_type] is movie, tv or person and that
    has no ["id"] makes the loop raise; a genre without ["name"], or with
    a name and without ["id"], makes the genre loop raise [KeyError]; and
    there are payloads without ["error"] on which the two tools raise
    instead of returning a text. *)
Theorem presentation_is_partial :
  (forall item, recognised (JDict item) = true -> dict_get "id" item = None ->
      exists e, multi_line (JDict item) = Raised e)
  /\ (forall genre,
         (dict_get "name" genre = None ->
          genre_line (JDict genre) = Raised (KeyError "name"))
         /\ (forall name, dict_get "name" genre = Some name ->
               dict_get "id" genre = None ->
               genre_line (JDict genre) = Raised (KeyError "id")))
  /\ (exists payload, py_in "error" payload = Returned false
        /\ forall query, present (OfMultiSearch query) payload = Raised (KeyError "id"))
  /\ (exists payload, py_in "error" payload = Returned false
        /\ present OfGenres payload = Raised (KeyError "name"))
  /\ (exists payload, py_in "error" payload = Returned false
        /\ present OfGenres payload = Raised (KeyError "id"))
  /\ (forall api_key args log,
         multi_search_tool api_key args (fun _ => Replied hit_without_id) log
         = (Raised (KeyError "id"),
            (log ++ [ {| req_url := "https://api.themoviedb.org/3/search/multi";
                         req_params :=
                           request_params api_key
                             (Some [ ("query", args_get args "query" (JStr ""));
                                     ("language", args_get args "language" en_US);
                                     ("page", JInt 1); ("include_adult", JBool false);
                                     ("region", JNull) ]) |} ])%list)).
Proof.
  split; [exact multi_line_needs_id |].
  split; [exact genre_line_needs_keys |].
  split; [exists hit_without_id; split; [reflexivity | intros query; reflexivity] |].
  split; [exists genre_without_name; split; reflexivity |].
  split; [exists genre_without_id; split; reflexivity |].
  intros api_key args log. reflexivity.
Qed.

Lemma presentation_is_partial_witness :
  recognised (JDict [("media_type", JStr "tv")]) = true
  /\ dict_get "id" [("media_type", JStr "tv")] = None
  /\ exists e, multi_line (JDict [("media_type", JStr "tv")]) = Raised e.
Proof.
  split; [reflexivity |]. split; [reflexivity |].
  exact (proj1 presentation_is_partial [("media_type", JStr "tv")] eq_refl eq_refl).
Defined.

(** ** The "known for" ranking *)

Section Sorting.

Context {A : Type}.
Implicit Types (x : Z * A) (l : list (Z * A)).

Lemma insert_desc_perm x l : Permutation (x :: l) (insert_desc Z.gtb x l).
Proof.
  induction l as [| y l IH]; cbn; [reflexivity |].
  destruct (fst y >? fst x); [| reflexivity].
  rewrite perm_swap. constructor. exact IH.
Qed.

Lemma sort_desc_perm l : Permutation l (sort_desc Z.gtb l).
Proof.
  induction l as [| x l IH]; cbn; [constructor |].
  rewrite <- insert_desc_perm. constructor. exact IH.
Qed.

Lemma insert_desc_sorted x l :
  StronglySorted (fun a b => fst a >= fst b) l ->
  StronglySorted (fun a b => fst a >= fst b) (insert_desc Z.gtb x l).
Proof.
  induction 1 as [| y l Hs IH Hy]; cbn.
  - repeat constructor.
  - destruct (fst y >? fst x) eqn:Hgt.
    + constructor; [exact IH |].
      apply (Permutation_Forall (insert_desc_perm x l)).
      constructor; [lia | exact Hy].
    + constructor; [constructor; assumption |].
      constructor; [lia |].
      eapply Forall_impl; [| exact Hy]. cbn. intros a Ha. lia.
Qed.

Lemma sort_desc_sorted l :
  StronglySorted (fun a b => fst a >= fst b) (sort_desc Z.gtb l).
Proof.
  induction l as [| x l IH]; cbn; [constructor |].
  apply insert_desc_sorted. exact IH.
Qed.

End Sorting.

Lemma insert_desc_map {A B} (f : A -> B) (x : Z * A) (l : list (Z * A)) :
  insert_desc Z.gtb (fst x, f (snd x)) (map (fun p => (fst p, f (snd p))) l)
  = map (fun p => (fst p, f (snd p))) (insert_desc Z.gtb x l).
Proof.
  induction l as [| y l IH]; cbn; [reflexivity |].
  destruct (fst y >? fst x); cbn; [rewrite IH |]; reflexivity.
Qed.

Lemma sort_desc_map {A B} (f : A -> B) (l : list (Z * A)) :
  sort_desc Z.gtb (map (fun p => (fst p, f (snd p))) l)
  = map (fun p => (fst p, f (snd p))) (sort_desc Z.gtb l).
Proof.
  induction l as [| x l IH]; cbn; [reflexivity |].
  rewrite IH. apply insert_desc_map.
Qed.

(** With numeric keys [sorted] returns the stable descending sort, also
    on fewer than two entries, where it makes no comparison. *)
Lemma sorted_desc_numeric (keyed : list (json * json)) (l : list (Z * json)) :
  keyed_as num_key keyed = Some l ->
  sorted_desc keyed = Returned (map snd (sort_desc Z.gtb l)).
Proof.
  intros H. unfold sorted_desc.
  destruct keyed as [| [k x] [| kx keyed]].
  - cbn in H. injection H as <-. reflexivity.
  - cbn in H. destruct (num_key k); [| discriminate H]. injection H as <-. reflexivity.
  - rewrite H. reflexivity.
Qed.

Lemma popularity_keys (credits : list dict) :
  map_each (fun x => let! k := py_get x "popularity" (JInt 0) in Returned (k, x))
           (map JDict credits)
  = Returned (map (fun c => (popularity_of c, JDict c)) credits).
Proof.
  induction credits as [| c cs IH]; cbn; [reflexivity |].
  rewrite IH. reflexivity.
Qed.

Lemma keyed_as_scored (credits : list dict) (scores : list Z) :
  scored credits scores ->
  keyed_as num_key (map (fun c => (popularity_of c, JDict c)) credits)
  = Some (map (fun p => (fst p, JDict (snd p))) (combine scores credits)).
Proof.
  intros H. induction H as [| c z cs zs Hc _ IH]; cbn; [reflexivity |].
  rewrite Hc, IH. reflexivity.
Qed.

(** The credits come back in descending order of their scores. *)
Lemma sorted_by_popularity_scored (credits : list dict) (scores : list Z) :
  scored credits scores ->
  sorted_by_popularity (JList (map JDict credits))
  = Returned (map JDict (map snd (sort_desc Z.gtb (combine scores credits)))).
Proof.
  intros H. unfold sorted_by_popularity. cbn [py_iter obind].
  rewrite popularity_keys. cbn [obind].
  rewrite (sorted_desc_numeric _ _ (keyed_as_scored credits scores H)).
  rewrite (sort_desc_map JDict). rewrite !map_map. reflexivity.
Qed.

Lemma titles_of_credits (credits : list dict) :
  map_each (fun m => py_get m "title" (JStr "Unknown")) (map JDict credits)
  = Returned (map title_of credits).
Proof.
  induction credits as [| c cs IH]; cbn; [reflexivity |].
  rewrite IH. reflexivity.
Qed.

(** C6.  The "known for" list of the person lookup: the credits under
    ["movie_credits"]["cast"], each with a numeric popularity (0 when the
    key is missing), are put in descending order of popularity - a
    rearrangement of the same credits - and the titles of the first five
    are listed.  With the scores 3, 9, 1, 7, 5, 8 the list is the titles
    of 9, 8, 7, 5 and 3, in that order, and the credit of score 1 is left
    out. *)
Theorem known_for_ranking :
  forall (d movie_credits : dict) (credits : list dict) (scores : list Z),
    dict_get "movie_credits" d = Some (JDict movie_credits) ->
    dict_get "cast" movie_credits = Some (JList (map JDict credits)) ->
    scored credits scores ->
    Permutation (combine scores credits) (sort_desc Z.gtb (combine scores credits))
    /\ descending (sort_desc Z.gtb (combine scores credits))
    /\ known_for_titles (JDict d)
       = Returned (map title_of
                     (firstn 5 (map snd (sort_desc Z.gtb (combine scores credits)))))
    /\ scored six_credits [3; 9; 1; 7; 5; 8]
    /\ known_for_titles (JDict a_person_payload)
       = Returned [JStr "nine"; JStr "eight"; JStr "seven"; JStr "five"; JStr "three"]
    /\ format_person_details (JInt 6384) (JDict a_person_payload)
       = Returned ("Person details:" ++ nl
                   ++ "name: Keanu Reeves" ++ nl
                   ++ "biography: N/A" ++ nl
                   ++ "birthday: N/A" ++ nl
                   ++ "place_of_birth: N/A" ++ nl
                   ++ "known_for: nine, eight, seven, five, three").
Proof.
  intros d movie_credits credits scores Hmc Hcast Hscored.
  split; [apply sort_desc_perm |].
  split; [apply sort_desc_sorted |].
  split.
  { unfold known_for_titles. cbn [py_in py_item py_get obind]. unfold dict_has.
    rewrite Hmc. cbn [obind py_get]. rewrite Hcast.
    rewrite (sorted_by_popularity_scored credits scores Hscored). cbn [obind].
    rewrite firstn_map. apply titles_of_credits. }
  split; [repeat constructor |].
  split; reflexivity.
Qed.

Lemma known_for_ranking_witness :
  scored six_credits [3; 9; 1; 7; 5; 8]
  /\ known_for_titles (JDict a_person_payload)
     = Returned (map title_of
                   (firstn 5 (map snd (sort_desc Z.gtb
                                         (combine [3; 9; 1; 7; 5; 8] six_credits))))).
Proof.
  assert (Hs : scored six_credits [3; 9; 1; 7; 5; 8]) by repeat constructor.
  split; [exact Hs |].
  exact (proj1 (proj2 (proj2
           (known_for_ranking a_person_payload _ six_credits [3; 9; 1; 7; 5; 8]
              eq_refl eq_refl Hs)))).
Defined.

(** * Further properties of the client and the tools *)

(** ** One request per call *)

(** Every wrapper issues exactly one request, to an address under the
    base URL, and the request does not depend on what the transport
    answers; when the exchange succeeds the decoded body is returned as it
    is. *)
Theorem one_request_per_call :
  forall (api_key : json) (c : call),
    exists req,
      (exists endpoint, req_url req = TMDB_API_BASE_URL ++ endpoint)
      /\ forall net log,
           snd (invoke api_key c net log) = (log ++ [req])%list
           /\ forall body, net req = Replied body ->
                fst (invoke api_key c net log) = Returned body.
Proof.
  intros api_key c.
  destruct (invoke_tmdb_request api_key c) as (endpoint & params & Hc & _).
  exists {| req_url := TMDB_API_BASE_URL ++ endpoint;
            req_params := request_params api_key (Some params) |}.
  split; [exists endpoint; reflexivity |].
  intros net log. rewrite Hc. unfold tmdb_request. cbn [fst snd].
  split; [reflexivity |]. intros body ->. reflexivity.
Qed.

(** ** The credential in the parameter set *)

Lemma dict_get_set_same (k : string) (v : json) (d : dict) :
  dict_get k (dict_set k v d) = Some v.
Proof.
  induction d as [| [k' v'] d IH]; cbn.
  - rewrite String.eqb_refl. reflexivity.
  - destruct (String.eqb_spec k k') as [-> | Hne]; cbn.
    + rewrite String.eqb_refl. reflexivity.
    + destruct (String.eqb_spec k k') as [-> | _]; [congruence | exact IH].
Qed.

Lemma dict_get_filter (k : string) (v : json) (d : dict) :
  dict_get k d = Some v -> v <> JNull ->
  dict_get k (filter not_none d) = Some v.
Proof.
  intros Hget Hv. induction d as [| [k' v'] d IH]; [discriminate Hget |].
  cbn in Hget. cbn [filter].
  destruct (String.eqb_spec k k') as [-> | Hne].
  - injection Hget as ->.
    rewrite (proj2 (not_none_true k' v) Hv). cbn. rewrite String.eqb_refl. reflexivity.
  - destruct (not_none (k', v')); cbn.
    + destruct (String.eqb_spec k k') as [-> | _]; [congruence |]. apply IH. exact Hget.
    + apply IH. exact Hget.
Qed.

(** [tmdb_request] sends the credential it was called with under
    ["api_key"], whatever [params] holds: an entry of that name supplied
    by the caller is overwritten. *)
Theorem credential_is_not_overridden :
  forall (api_key : json) (params : option dict),
    api_key <> JNull ->
    dict_get "api_key" (request_params api_key params) = Some api_key.
Proof.
  intros api_key params Hkey. unfold request_params.
  apply dict_get_filter; [apply dict_get_set_same | exact Hkey].
Qed.

Lemma credential_is_not_overridden_witness :
  JStr "secret" <> JNull
  /\ dict_get "api_key"
       (request_params (JStr "secret")
          (Some [("api_key", JStr "other"); ("page", JInt 2)]))
     = Some (JStr "secret").
Proof.
  assert (H : JStr "secret" <> JNull) by discriminate.
  split; [exact H |].
  exact (credential_is_not_overridden (JStr "secret")
           (Some [("api_key", JStr "other"); ("page", JInt 2)]) H).
Defined.

(** ** Lookups by identifier *)

(** With an identifier that is truthy, each of the five tools issues
    one request: the identifier, as [str] writes it, is put into the
    path, and the language (["en-US"] unless [args] has one) into the
    parameters; the person lookup also asks for the movie credits. *)
Theorem lookup_by_id_requests :
  forall (api_key : json) (args : dict) (net : transport) (log : list request),
    let language := args_get args "language" en_US in
    (forall id, args_get args "movie_id" JNull = id -> py_truthy id = true ->
       snd (get_movie_details_tool api_key args net log)
       = (log ++ [lookup_request api_key "/movie/" "" id [("language", language)]])%list
       /\ snd (get_movie_recommendations_tool api_key args net log)
          = (log ++ [lookup_request api_key "/movie/" "/recommendations" id
                       [("language", language)]])%list
       /\ snd (get_similar_movies_tool api_key args net log)
          = (log ++ [lookup_request api_key "/movie/" "/similar" id
                       [("language", language)]])%list
       /\ snd (get_movie_credits_tool api_key args net log)
          = (log ++ [lookup_request api_key "/movie/" "/credits" id
                       [("language", language)]])%list)
    /\ (forall id, args_get args "person_id" JNull = id -> py_truthy id = true ->
          snd (get_person_details_tool api_key args net log)
          = (log ++ [lookup_request api_key "/person/" "" id
                       [("language", language);
                        ("append_to_response", JStr "movie_credits")]])%list).
Proof.
  intros api_key args net log language. split.
  - intros id Hid Ht.
    unfold get_movie_details_tool, get_movie_recommendations_tool,
      get_similar_movies_tool, get_movie_credits_tool.
    rewrite Hid, Ht. cbn [negb]. unfold bind, lookup_request.
    unfold get_movie_details, get_movie_recommendations, get_similar_movies,
      get_movie_credits, tmdb_request. cbn [arg_or].
    repeat split;
      match goal with
      | |- context [received ?r] => destruct (received r)
      end; cbn [snd lift]; rewrite ?str_app_nil_r; reflexivity.
  - intros id Hid Ht. unfold get_person_details_tool.
    rewrite Hid, Ht. cbn [negb]. unfold bind, lookup_request.
    unfold get_person_details, tmdb_request. cbn [arg_or].
    match goal with
    | |- context [received ?r] => destruct (received r)
    end; cbn [snd lift]; rewrite ?str_app_nil_r; reflexivity.
Qed.

Lemma lookup_by_id_requests_witness :
  args_get [("movie_id", JStr "603")] "movie_id" JNull = JStr "603"
  /\ py_truthy (JStr "603") = true
  /\ snd (get_movie_credits_tool (JStr "k") [("movie_id", JStr "603")]
            (fun _ => Replied JNull) [])
     = [ {| req_url := "https://api.themoviedb.org/3/movie/603/credits";
            req_params := [("language", JStr "en-US"); ("api_key", JStr "k")] |} ].
Proof.
  split; [reflexivity |]. split; [reflexivity |].
  exact (proj2 (proj2 (proj2
           (proj1 (lookup_by_id_requests (JStr "k") [("movie_id", JStr "603")]
                     (fun _ => Replied JNull) [])
              (JStr "603") eq_refl eq_refl)))).
Defined.

(** ** Payloads with nothing to show, and payloads that are no dict *)



(** A body that decodes to [null] makes every tool raise; one that
    decodes to an empty list makes the nine listing tools raise, while
    the credits and the two detail lookups answer it with their "nothing
    found" sentence. *)
Theorem payload_that_is_no_dict :
  forall r : rendering,
    present r JNull = Raised TypeError
    /\ (lists_items r = true -> present r (JList []) = Raised AttributeError)
    /\ (lists_items r = false -> present r (JList []) = Returned (nothing_found r)).
Proof.
  intros r. split; [destruct r; reflexivity |].
  split; intros Hr; destruct r; cbn in Hr; try discriminate Hr; reflexivity.
Qed.

(** ** What the loop reads *)

Lemma format_listing_loop (error_prefix none_found header field : string)
      (cap : nat) (line : json -> outcome string) (d : dict) (items : list json) :
  dict_get "error" d = None ->
  dict_get field d = Some (JList items) ->
  items <> [] ->
  format_listing error_prefix none_found header field (Some cap) line (JDict d)
  = for_each line (firstn cap items) header.
Proof.
  intros Herr Hfield Hne.
  unfold format_listing. cbn [py_in py_get obind]. unfold dict_has.
  rewrite Herr, Hfield. cbn [obind].
  destruct items as [| x items]; [congruence |]. reflexivity.
Qed.

Lemma present_loop (r : rendering) (cap : nat) (line : json -> outcome string)
      (header : string) (d : dict) (items : list json) :
  listing_of r = Some (cap, line, header) ->
  dict_get "error" d = None ->
  dict_get "results" d = Some (JList items) ->
  items <> [] ->
  present r (JDict d) = for_each line (firstn cap items) header.
Proof.
  intros Hr Herr Hres Hne.
  destruct r; cbn in Hr; try discriminate Hr; injection Hr as <- <- <-;
    unfold present, format_search_movie, format_movie_recommendations,
      format_trending_movies, format_discover_movies, format_upcoming_movies,
      format_now_playing_movies, format_similar_movies, format_multi_search;
    apply format_listing_loop; assumption.
Qed.

(** The tools that list ["results"] never look past the cap: two
    payloads that agree on their first [cap] items get the same answer,
    so an item beyond the cap cannot make the tool fail.  Within the cap
    the first item whose line faults ends the tool with that exception,
    and no text is returned for the items before it. *)
Theorem items_past_the_cap_are_not_read :
  forall r cap line header d d' items items',
    listing_of r = Some (cap, line, header) ->
    dict_get "error" d = None -> dict_get "error" d' = None ->
    dict_get "results" d = Some (JList items) ->
    dict_get "results" d' = Some (JList items') ->
    items <> [] -> items' <> [] ->
    firstn cap items = firstn cap items' ->
    present r (JDict d) = present r (JDict d')
    /\ forall before x after lines e,
         firstn cap items = (before ++ x :: after)%list ->
         lines_of line before lines ->
         line x = Raised e ->
         present r (JDict d) = Raised e.
Proof.
  intros r cap line header d d' items items' Hr Herr Herr' Hres Hres' Hne Hne' Hsame.
  rewrite (present_loop r cap line header d items Hr Herr Hres Hne).
  rewrite (present_loop r cap line header d' items' Hr Herr' Hres' Hne').
  split; [rewrite Hsame; reflexivity |].
  intros before x after lines e Hsplit Hlines Hx.
  rewrite Hsplit. apply (for_each_fault line before lines x after header e Hlines Hx).
Qed.

Lemma items_past_the_cap_are_not_read_witness :
  present OfDiscover (JDict [("results", JList (six_hits ++ [JInt 0]))])
  = present OfDiscover (JDict [("results", JList six_hits)]).
Proof.
  refine (proj1 (items_past_the_cap_are_not_read OfDiscover 5%nat movie_line _
                   [("results", JList (six_hits ++ [JInt 0]))]
                   [("results", JList six_hits)]
                   (six_hits ++ [JInt 0])%list six_hits
                   eq_refl eq_refl eq_refl eq_refl eq_refl _ _ eq_refl));
    discriminate.
Defined.

(** ** Dates in the item lines *)

(** For an item with its fields in place the search line shows the first
    four characters of the release date and the upcoming line shows the
    date in full; an empty date is "N/A" on the search line and empty on
    the upcoming line, and a [null] date is "N/A" on the search line and
    "None" on the upcoming line. *)
Theorem dates_in_item_lines :
  forall (item : dict) (genre_ids : list json),
    dict_get "genre_ids" item = Some (JList genre_ids) ->
    let shown date :=
      Returned ("id: " ++ py_str (args_get item "id" (JStr ""))
                ++ " title: " ++ py_str (args_get item "title" (JStr "Unknown"))
                ++ " release_date: " ++ date
                ++ " genre_ids: " ++ genres_text genre_ids ++ nl) in
    (forall date, dict_get "release_date" item = Some (JStr date) -> date <> "" ->
       movie_line (JDict item) = shown (year_text date)
       /\ release_line (JDict item) = shown date)
    /\ (dict_get "release_date" item = Some (JStr "") ->
        movie_line (JDict item) = shown "N/A" /\ release_line (JDict item) = shown "")
    /\ (dict_get "release_date" item = Some JNull ->
        movie_line (JDict item) = shown "N/A" /\ release_line (JDict item) = shown "None").
Proof.
  intros item genre_ids Hg shown. unfold shown, movie_line, release_line, args_get.
  cbn [py_get obind]. rewrite Hg.
  split; [| split].
  - intros date Hd Hne. rewrite (year_of_date item "release_date" date Hd Hne).
    rewrite Hd. split; reflexivity.
  - intros Hd. unfold year_of. cbn [py_get obind]. rewrite Hd. split; reflexivity.
  - intros Hd. unfold year_of. cbn [py_get obind]. rewrite Hd. split; reflexivity.
Qed.

Lemma dates_in_item_lines_witness :
  dict_get "genre_ids" dated_hit = Some (JList [JInt 28; JInt 80])
  /\ movie_line (JDict dated_hit)
     = Returned ("id: 949 title: Heat release_date: 1995 genre_ids: 28, 80" ++ nl)
  /\ release_line (JDict dated_hit)
     = Returned ("id: 949 title: Heat release_date: 1995-12-15 genre_ids: 28, 80" ++ nl).
Proof.
  assert (Hne : "1995-12-15" <> "") by discriminate.
  split; [reflexivity |].
  exact (proj1 (dates_in_item_lines dated_hit [JInt 28; JInt 80] eq_refl)
           "1995-12-15" eq_refl Hne).
Defined.

(** ** The details blocks *)

Lemma names_of_named (gs : list dict) (names : list string) :
  Forall2 named gs names ->
  map_each (fun x => py_item x "name") (map JDict gs) = Returned (map JStr names).
Proof.
  induction 1 as [| g n gs names Hg _ IH]; cbn; [reflexivity |].
  unfold named in Hg. rewrite Hg. cbn. rewrite IH. reflexivity.
Qed.

Lemma joined_names_under (d : dict) (field : string) (names : list string) :
  names_under d field names ->
  joined_names (JDict d) field = Returned (join ", " names).
Proof.
  unfold joined_names. cbn [py_get obind].
  intros [[-> ->] | (gs & -> & Hgs)]; cbn [py_iter obind map_each].
  - reflexivity.
  - rewrite (names_of_named gs names Hgs). cbn [obind]. apply py_join_strs.
Qed.

(** The movie details block, for a payload with ["id"] and ["title"]
    whose genres, languages and companies have names: eighteen lines in a
    fixed order; a missing field is "N/A", the three lists are joined by
    ", " (empty when missing), and budget and revenue are written behind
    a dollar sign, 0 when missing. *)
Theorem movie_details_block :
  forall (movie_id : json) (d : dict) (id title : json)
         (genres languages companies : list string),
    dict_get "error" d = None ->
    dict_get "id" d = Some id ->
    dict_get "title" d = Some title ->
    names_under d "genres" genres ->
    names_under d "spoken_languages" languages ->
    names_under d "production_companies" companies ->
    format_movie_details movie_id (JDict d)
    = Returned ("Movie details:" ++ nl
                ++ "id: " ++ py_str id ++ nl
                ++ "title: " ++ py_str title ++ nl
                ++ "original_title: " ++ shown_or d "original_title" (JStr "N/A") ++ nl
                ++ "release_date: " ++ shown_or d "release_date" (JStr "N/A") ++ nl
                ++ "runtime: " ++ shown_or d "runtime" (JStr "N/A") ++ " minutes" ++ nl
                ++ "overview: " ++ shown_or d "overview" (JStr "N/A") ++ nl
                ++ "vote_average: " ++ shown_or d "vote_average" (JStr "N/A") ++ nl
                ++ "vote_count: " ++ shown_or d "vote_count" (JStr "N/A") ++ nl
                ++ "popularity: " ++ shown_or d "popularity" (JStr "N/A") ++ nl
                ++ "genres: " ++ join ", " genres ++ nl
                ++ "original_language: " ++ shown_or d "original_language" (JStr "N/A") ++ nl
                ++ "spoken_languages: " ++ join ", " languages ++ nl
                ++ "production_companies: " ++ join ", " companies ++ nl
                ++ "budget: $" ++ shown_or d "budget" (JInt 0) ++ nl
                ++ "revenue: $" ++ shown_or d "revenue" (JInt 0) ++ nl
                ++ "status: " ++ shown_or d "status" (JStr "N/A") ++ nl
                ++ "tagline: " ++ shown_or d "tagline" (JStr "N/A")).
Proof.
  intros movie_id d id title genres languages companies Herr Hid Htitle Hg Hl Hc.
  unfold format_movie_details, no_details.
  cbn [py_in obind]. unfold dict_has. rewrite Herr, Hid. cbn [obind negb].
  rewrite (joined_names_under d "genres" genres Hg). cbn [obind].
  rewrite (joined_names_under d "production_companies" companies Hc). cbn [obind].
  rewrite (joined_names_under d "spoken_languages" languages Hl). cbn [obind].
  cbn [py_item]. rewrite Hid, Htitle. cbn [obind].
  unfold field_or, shown_or, args_get. cbn [py_get obind]. reflexivity.
Qed.

Lemma movie_details_block_witness :
  names_under the_matrix "genres" ["Action"; "Science Fiction"]
  /\ format_movie_details (JInt 603) (JDict the_matrix)
     = Returned ("Movie details:" ++ nl
                 ++ "id: 603" ++ nl
                 ++ "title: The Matrix" ++ nl
                 ++ "original_title: N/A" ++ nl
                 ++ "release_date: N/A" ++ nl
                 ++ "runtime: 136 minutes" ++ nl
                 ++ "overview: N/A" ++ nl
                 ++ "vote_average: N/A" ++ nl
                 ++ "vote_count: N/A" ++ nl
                 ++ "popularity: N/A" ++ nl
                 ++ "genres: Action, Science Fiction" ++ nl
                 ++ "original_language: N/A" ++ nl
                 ++ "spoken_languages: " ++ nl
                 ++ "production_companies: " ++ nl
                 ++ "budget: $0" ++ nl
                 ++ "revenue: $0" ++ nl
                 ++ "status: N/A" ++ nl
                 ++ "tagline: N/A").
Proof.
  assert (Hg : names_under the_matrix "genres" ["Action"; "Science Fiction"]).
  { right. exists [ [("id", JInt 28); ("name", JStr "Action")];
                    [("id", JInt 878); ("name", JStr "Science Fiction")] ].
    split; [reflexivity | repeat constructor]. }
  split; [exact Hg |].
  exact (movie_details_block (JInt 603) the_matrix (JInt 603) (JStr "The Matrix")
           ["Action"; "Science Fiction"] [] []
           eq_refl eq_refl eq_refl Hg
           (or_introl (conj eq_refl eq_refl)) (or_introl (conj eq_refl eq_refl))).
Defined.

(** A payload with ["id"] and without ["title"] makes the movie details
    tool raise: the title is read unchecked, where the fields after it
    have a default. *)
Theorem movie_details_needs_title :
  forall (movie_id : json) (d : dict) (id : json)
         (genres languages companies : list string),
    dict_get "error" d = None ->
    dict_get "id" d = Some id ->
    dict_get "title" d = None ->
    names_under d "genres" genres ->
    names_under d "spoken_languages" languages ->
    names_under d "production_companies" companies ->
    format_movie_details movie_id (JDict d) = Raised (KeyError "title").
Proof.
  intros movie_id d id genres languages companies Herr Hid Htitle Hg Hl Hc.
  unfold format_movie_details, no_details.
  cbn [py_in obind]. unfold dict_has. rewrite Herr, Hid. cbn [obind negb].
  rewrite (joined_names_under d "genres" genres Hg). cbn [obind].
  rewrite (joined_names_under d "production_companies" companies Hc). cbn [obind].
  rewrite (joined_names_under d "spoken_languages" languages Hl). cbn [obind].
  cbn [py_item]. rewrite Hid, Htitle. reflexivity.
Qed.

Lemma movie_details_needs_title_witness :
  dict_get "title" [("id", JInt 603)] = None
  /\ format_movie_details (JInt 603) (JDict [("id", JInt 603)])
     = Raised (KeyError "title").
Proof.
  split; [reflexivity |].
  exact (movie_details_needs_title (JInt 603) [("id", JInt 603)] (JInt 603) [] [] []
           eq_refl eq_refl eq_refl
           (or_introl (conj eq_refl eq_refl)) (or_introl (conj eq_refl eq_refl))
           (or_introl (conj eq_refl eq_refl))).
Defined.

(** A person without credits to rank - no ["movie_credits"], or no
    ["cast"] in it, or an empty one - is shown with "known_for: N/A";
    the other four fields are "N/A" when missing. *)
Theorem person_without_credits :
  forall (person_id : json) (d : dict) (id : json),
    dict_get "error" d = None ->
    dict_get "id" d = Some id ->
    no_credits d ->
    format_person_details person_id (JDict d)
    = Returned ("Person details:" ++ nl
                ++ "name: " ++ shown_or d "name" (JStr "N/A") ++ nl
                ++ "biography: " ++ shown_or d "biography" (JStr "N/A") ++ nl
                ++ "birthday: " ++ shown_or d "birthday" (JStr "N/A") ++ nl
                ++ "place_of_birth: " ++ shown_or d "place_of_birth" (JStr "N/A") ++ nl
                ++ "known_for: N/A").
Proof.
  intros person_id d id Herr Hid Hno.
  assert (Hk : known_for_titles (JDict d) = Returned []).
  { unfold known_for_titles. cbn [py_in py_item obind]. unfold dict_has.
    destruct Hno as [H | (mc & H & [Hcast | Hcast])]; rewrite H;
      cbn [obind py_get]; [reflexivity | |]; rewrite Hcast; reflexivity. }
  unfold format_person_details, no_details.
  cbn [py_in obind]. unfold dict_has. rewrite Herr, Hid. cbn [obind negb].
  rewrite Hk. cbn [obind].
  unfold field_or, shown_or, args_get. cbn [py_get obind py_truthy]. reflexivity.
Qed.

Lemma person_without_credits_witness :
  no_credits [("id", JInt 6384); ("name", JStr "Keanu Reeves")]
  /\ format_person_details (JInt 6384)
       (JDict [("id", JInt 6384); ("name", JStr "Keanu Reeves")])
     = Returned ("Person details:" ++ nl
                 ++ "name: Keanu Reeves" ++ nl
                 ++ "biography: N/A" ++ nl
                 ++ "birthday: N/A" ++ nl
                 ++ "place_of_birth: N/A" ++ nl
                 ++ "known_for: N/A").
Proof.
  assert (H : no_credits [("id", JInt 6384); ("name", JStr "Keanu Reeves")])
    by (left; reflexivity).
  split; [exact H |].
  exact (person_without_credits (JInt 6384)
           [("id", JInt 6384); ("name", JStr "Keanu Reeves")] (JInt 6384)
           eq_refl eq_refl H).
Defined.

(** ** A search without a query *)

(** The two search tools have no guard on ["query"]: when [args] has
    none, the request still goes out, with the query sent as the empty
    string. *)
Theorem missing_query_is_sent_empty :
  forall (api_key : json) (args : dict) (net : transport) (log : list request),
    dict_get "query" args = None ->
    (exists req,
        snd (search_movie_tool api_key args net log) = (log ++ [req])%list
        /\ req_url req = TMDB_API_BASE_URL ++ "/search/movie"
        /\ dict_get "query" (req_params req) = Some (JStr ""))
    /\ (exists req,
           snd (multi_search_tool api_key args net log) = (log ++ [req])%list
           /\ req_url req = TMDB_API_BASE_URL ++ "/search/multi"
           /\ dict_get "query" (req_params req) = Some (JStr "")).
Proof.
  intros api_key args net log Hq.
  unfold search_movie_tool, multi_search_tool, args_get. rewrite Hq.
  unfold bind, search_movie, multi_search, tmdb_request.
  split; eexists;
    (split; [match goal with
             | |- context [received ?r] => destruct (received r)
             end; reflexivity
            | split; reflexivity]).
Qed.

Lemma missing_query_is_sent_empty_witness :
  dict_get "query" [("language", JStr "de-DE")] = None
  /\ exists req,
       snd (multi_search_tool (JStr "k") [("language", JStr "de-DE")]
              (fun _ => Replied (JDict [])) [])
       = ([] ++ [req])%list
       /\ req_url req = TMDB_API_BASE_URL ++ "/search/multi"
       /\ dict_get "query" (req_params req) = Some (JStr "").
Proof.
  assert (Hq : dict_get "query" [("language", JStr "de-DE")] = None) by reflexivity.
  split; [exact Hq |].
  exact (proj2 (missing_query_is_sent_empty (JStr "k") [("language", JStr "de-DE")]
                  (fun _ => Replied (JDict [])) [] Hq)).
Defined.
